(** * zod-v3-to-v4: the command-line pipeline of [src/index.ts]

    The script takes one path argument, validates it, looks for the closest
    [tsconfig.json] above the file, builds a ts-morph project that holds only
    that file, runs the migration on it and saves the project.

    The development has three layers:
    - [NodePath] and [NodeFs]: the parts of Node's [node:path] (POSIX flavour)
      and [node:fs] that the script calls, over an explicit file system;
    - the ts-morph project and the migration, which the script only calls:
      they are interfaces ([TsMorph], [Migration]) with the operations the
      script uses;
    - the script itself: [validateFilePath], [findClosestTsConfig],
      [runMigration] and the top-level statements ([main]), written in a
      state-and-exit monad over the process's world. *)

From Stdlib Require Import ZArith Ascii String List Lia.
From stdpp Require Import base option list strings gmap.

Local Open Scope Z_scope.

(** ** Strings as JavaScript uses them

    A JavaScript string is indexed by code unit; the path functions only ever
    compare a unit with ["/"] or ["."], so a string of bytes carries the same
    information. *)

Module Js.

Definition charAt (s : string) (i : Z) : option ascii :=
  if i <? 0 then None else String.get (Z.to_nat i) s.

Definition len (s : string) : Z := Z.of_nat (String.length s).

(** [s.slice(from, to)] for [0 <= from]. *)
Definition slice (s : string) (from to : Z) : string :=
  String.substring (Z.to_nat from) (Z.to_nat (to - from)) s.

Definition isChar (c : ascii) (o : option ascii) : bool :=
  match o with
  | Some c' => bool_decide (c' = c)
  | None => false
  end.

(** [s.lastIndexOf(c)], [-1] when [c] does not occur. *)
Fixpoint lastIndexOfFrom (c : ascii) (s : string) (i : Z) : Z :=
  match s with
  | EmptyString => -1
  | String c' rest =>
      let later := lastIndexOfFrom c rest (i + 1) in
      if later =? -1 then (if bool_decide (c' = c) then i else -1) else later
  end.

Definition lastIndexOf (s : string) (c : ascii) : Z := lastIndexOfFrom c s 0.

(** [s.split("/")]. *)
Fixpoint split (c : ascii) (s : string) : list string :=
  match s with
  | EmptyString => [EmptyString]
  | String c' rest =>
      if bool_decide (c' = c) then EmptyString :: split c rest
      else match split c rest with
           | piece :: pieces => String c' piece :: pieces
           | [] => [String c' EmptyString]
           end
  end.

(** [pieces.join(sep)]. *)
Fixpoint join (sep : string) (pieces : list string) : string :=
  match pieces with
  | [] => EmptyString
  | [piece] => piece
  | piece :: rest => piece +:+ sep +:+ join sep rest
  end.

End Js.

(** ** [node:path], POSIX *)

Module NodePath.

Definition SLASH : ascii := "/"%char.
Definition DOT : ascii := "."%char.

Definition isSlashAt (path : string) (i : Z) : bool :=
  Js.isChar SLASH (Js.charAt path i).
Definition isDotAt (path : string) (i : Z) : bool :=
  Js.isChar DOT (Js.charAt path i).

(** *** [path.dirname]

    The loop [for (i = path.length - 1; i >= 1; --i)]: [i] is the index
    under inspection, the result is [end], [None] standing for [-1]. *)
Fixpoint dirnameScan (path : string) (i : nat) (matchedSlash : bool)
  : option nat :=
  match i with
  | O => None
  | S j =>
      if isSlashAt path (Z.of_nat i) then
        if matchedSlash then dirnameScan path j matchedSlash
        else Some i
      else dirnameScan path j false
  end.

Definition dirname (path : string) : string :=
  match String.length path with
  | O => "."
  | S last =>
      let hasRoot := isSlashAt path 0 in
      match dirnameScan path last true with
      | None => if hasRoot then "/" else "."
      | Some end_ =>
          if hasRoot && bool_decide (end_ = 1%nat) then "//"
          else String.substring 0 end_ path
      end
  end.

(** *** [path.extname] *)

Record ExtScan := {
  startDot : Z;
  startPart : Z;
  end_ : Z;
  matchedSlash : bool;
  preDotState : Z
}.

Definition extStart : ExtScan :=
  {| startDot := -1; startPart := 0; end_ := -1;
     matchedSlash := true; preDotState := 0 |}.

(** The loop [for (i = path.length - 1; i >= 0; --i)]; [n] is [i + 1]. *)
Fixpoint extnameScan (path : string) (n : nat) (st : ExtScan) : ExtScan :=
  match n with
  | O => st
  | S j =>
      let i := Z.of_nat j in
      if isSlashAt path i then
        if negb (matchedSlash st) then
          {| startDot := startDot st; startPart := i + 1; end_ := end_ st;
             matchedSlash := matchedSlash st;
             preDotState := preDotState st |}
        else extnameScan path j st
      else
        let st1 :=
          if end_ st =? -1 then
            {| startDot := startDot st; startPart := startPart st;
               end_ := i + 1; matchedSlash := false;
               preDotState := preDotState st |}
          else st in
        let st2 :=
          if isDotAt path i then
            if startDot st1 =? -1 then
              {| startDot := i; startPart := startPart st1;
                 end_ := end_ st1; matchedSlash := matchedSlash st1;
                 preDotState := preDotState st1 |}
            else if negb (preDotState st1 =? 1) then
              {| startDot := startDot st1; startPart := startPart st1;
                 end_ := end_ st1; matchedSlash := matchedSlash st1;
                 preDotState := 1 |}
            else st1
          else if negb (startDot st1 =? -1) then
            {| startDot := startDot st1; startPart := startPart st1;
               end_ := end_ st1; matchedSlash := matchedSlash st1;
               preDotState := -1 |}
          else st1 in
        extnameScan path j st2
  end.

Definition extname (path : string) : string :=
  let st := extnameScan path (String.length path) extStart in
  if (startDot st =? -1)
     || (end_ st =? -1)
     || (preDotState st =? 0)
     || ((preDotState st =? 1)
         && (startDot st =? end_ st - 1)
         && (startDot st =? startPart st + 1))
  then ""
  else Js.slice path (startDot st) (end_ st).

(** *** [normalizeString], the helper of [normalize] and [resolve] *)

Record NormState := {
  res : string;
  lastSegmentLength : Z;
  lastSlash : Z;
  dots : Z;
  code : ascii
}.

Definition normStart : NormState :=
  {| res := ""; lastSegmentLength := 0; lastSlash := -1; dots := 0;
     code := "000"%char |}.

(** What one separator does to [res] and [lastSegmentLength]; the caller
    then sets [lastSlash := i] and [dots := 0], on every path through the
    branch (the two [continue]s included). *)
Definition normSeparator (path : string) (allowAboveRoot : bool) (i : Z)
    (st : NormState) : string * Z :=
  let keep := (res st, lastSegmentLength st) in
  let above :=
    if allowAboveRoot then
      ((if 0 <? Js.len (res st) then res st +:+ "/.." else ".."), 2)
    else keep in
  if (lastSlash st =? i - 1) || (dots st =? 1) then keep
  else if dots st =? 2 then
    if (Js.len (res st) <? 2)
       || negb (lastSegmentLength st =? 2)
       || negb (isDotAt (res st) (Js.len (res st) - 1))
       || negb (isDotAt (res st) (Js.len (res st) - 2))
    then
      if 2 <? Js.len (res st) then
        let lastSlashIndex := Js.lastIndexOf (res st) SLASH in
        if lastSlashIndex =? -1 then ("", 0)
        else
          let res' := Js.slice (res st) 0 lastSlashIndex in
          (res', Js.len res' - 1 - Js.lastIndexOf res' SLASH)
      else if negb (Js.len (res st) =? 0) then ("", 0)
      else above
    else above
  else
    let segment := Js.slice path (lastSlash st + 1) i in
    ((if 0 <? Js.len (res st) then res st +:+ "/" +:+ segment else segment),
     i - lastSlash st - 1).

(** The loop [for (i = 0; i <= path.length; ++i)]; [n] iterations are
    left. *)
Fixpoint normalizeLoop (path : string) (allowAboveRoot : bool)
    (n : nat) (i : Z) (st : NormState) : string :=
  match n with
  | O => res st
  | S n' =>
      let fetched :=
        if i <? Js.len path then Js.charAt path i
        else if bool_decide (code st = SLASH) then None
        else Some SLASH in
      match fetched with
      | None => res st
      | Some c =>
          let st' :=
            if bool_decide (c = SLASH) then
              let '(r, l) := normSeparator path allowAboveRoot i st in
              {| res := r; lastSegmentLength := l; lastSlash := i;
                 dots := 0; code := c |}
            else if bool_decide (c = DOT) && negb (dots st =? -1) then
              {| res := res st; lastSegmentLength := lastSegmentLength st;
                 lastSlash := lastSlash st; dots := dots st + 1; code := c |}
            else
              {| res := res st; lastSegmentLength := lastSegmentLength st;
                 lastSlash := lastSlash st; dots := -1; code := c |} in
          normalizeLoop path allowAboveRoot n' (i + 1) st'
      end
  end.

Definition normalizeString (path : string) (allowAboveRoot : bool) : string :=
  normalizeLoop path allowAboveRoot (S (String.length path)) 0 normStart.

(** *** [path.normalize] *)
Definition normalize (path : string) : string :=
  if Js.len path =? 0 then "."
  else
    let isAbsolute := isSlashAt path 0 in
    let trailingSeparator := isSlashAt path (Js.len path - 1) in
    let path' := normalizeString path (negb isAbsolute) in
    if Js.len path' =? 0 then
      if isAbsolute then "/"
      else if trailingSeparator then "./" else "."
    else
      let path'' := if trailingSeparator then path' +:+ "/" else path' in
      if isAbsolute then "/" +:+ path'' else path''.

(** *** [path.join] *)
Definition join (args : list string) : string :=
  match filter (fun arg => 0 < Js.len arg) args with
  | [] => "."
  | parts => normalize (Js.join "/" parts)
  end.

(** *** [path.resolve]

    The loop [for (i = args.length - 1; i >= -1 && !resolvedAbsolute; i--)]
    goes through the arguments from the right and then, at [i = -1],
    through the working directory. *)
Fixpoint resolveLoop (rev_args : list string) (resolvedPath : string)
  : string * bool :=
  match rev_args with
  | [] => (resolvedPath, false)
  | path :: rest =>
      if Js.len path =? 0 then resolveLoop rest resolvedPath
      else
        let resolvedPath' := path +:+ "/" +:+ resolvedPath in
        if isSlashAt path 0 then (resolvedPath', true)
        else resolveLoop rest resolvedPath'
  end.

Definition resolve (cwd : string) (args : list string) : string :=
  let '(resolvedPath, resolvedAbsolute) :=
    resolveLoop (rev args ++ [cwd]) "" in
  let normalized := normalizeString resolvedPath (negb resolvedAbsolute) in
  if resolvedAbsolute then "/" +:+ normalized
  else if 0 <? Js.len normalized then normalized else ".".

End NodePath.

(** ** [node:fs] over an explicit file system

    The disk maps the component list of an absolute path to what is there.
    A path string is resolved the way the operating system does it (no
    symbolic links): every component is entered in turn, and entering needs a
    directory. *)

Module NodeFs.

Inductive Node :=
| File (content : string)
| Directory.

#[global] Instance Node_eq_dec : EqDecision Node.
Proof. solve_decision. Defined.

Definition isFile (n : option Node) : bool :=
  match n with
  | Some (File _) => true
  | _ => false
  end.

Fixpoint walk (disk : gmap (list string) Node) (here : list string)
    (segments : list string) : option (list string) :=
  match segments with
  | [] => Some here
  | segment :: rest =>
      match disk !! here with
      | Some Directory =>
          if bool_decide (segment = "" ∨ segment = ".") then
            walk disk here rest
          else if bool_decide (segment = "..") then
            walk disk (removelast here) rest
          else walk disk (here ++ [segment]) rest
      | _ => None
      end
  end.

Definition isAbsolute (path : string) : bool := NodePath.isSlashAt path 0.

(** Where [path] leads, from the working directory when it is relative. *)
Definition locate (disk : gmap (list string) Node) (cwd path : string)
  : option (list string) :=
  if bool_decide (path = "") then None
  else if isAbsolute path then walk disk [] (Js.split "/" path)
  else walk disk [] (Js.split "/" cwd ++ Js.split "/" path).

Definition stat (disk : gmap (list string) Node) (cwd path : string)
  : option Node :=
  where_ ← locate disk cwd path; disk !! where_.

(** [fs.existsSync]: anything at all at the path, file or directory. *)
Definition existsSync (disk : gmap (list string) Node) (cwd path : string)
  : bool :=
  bool_decide (is_Some (stat disk cwd path)).

(** Reading a regular file. *)
Definition readFile (disk : gmap (list string) Node) (cwd path : string)
  : option string :=
  match stat disk cwd path with
  | Some (File content) => Some content
  | _ => None
  end.

(** Writing a regular file: the directory must exist and the name must not
    be taken by a directory. *)
Definition writeFile (disk : gmap (list string) Node) (cwd path : string)
    (content : string) : option (gmap (list string) Node) :=
  match locate disk cwd (NodePath.dirname path) with
  | None => None
  | Some dir =>
      let name := List.last (Js.split "/" path) "" in
      if bool_decide (name = "" ∨ name = "." ∨ name = "..") then None
      else
        match disk !! dir, disk !! (dir ++ [name]) with
        | Some Directory, Some Directory => None
        | Some Directory, _ => Some (<[dir ++ [name] := File content]> disk)
        | _, _ => None
        end
  end.

End NodeFs.

(** ** The process: working directory, disk, and what it has done so far *)

(** A thrown value: an [Error] with its message, or anything else. *)
Inductive Thrown :=
| ErrorObject (message : string)
| NotAnError.

Inductive Event :=
| ConsoleError (message : string)
| ConsoleLog (message : string)
| ExistsSync (path : string) (found : bool)
| ReadFile (path : string)
| WriteFile (path : string) (content : string).

Record World := {
  cwd : string;
  disk : gmap (list string) NodeFs.Node;
  events : list Event
}.

(** How a computation ends: with a value, in [process.exit(code)], in an
    exception nobody caught, or (for the model's bounded loop only) with the
    loop budget used up. *)
Inductive Outcome (A : Type) :=
| Returned (a : A)
| Exited (code : Z)
| Threw (e : Thrown)
| OutOfFuel.
Arguments Returned {A} a.
Arguments Exited {A} code.
Arguments Threw {A} e.
Arguments OutOfFuel {A}.

Definition Proc (A : Type) : Type := World → Outcome A * World.

Definition Proc_ret {A} (a : A) : Proc A := fun w => (Returned a, w).

Definition Proc_bind {A B} (k : A → Proc B) (m : Proc A) : Proc B :=
  fun w =>
    match m w with
    | (Returned a, w') => k a w'
    | (Exited code, w') => (Exited code, w')
    | (Threw e, w') => (Threw e, w')
    | (OutOfFuel, w') => (OutOfFuel, w')
    end.

#[global] Instance Proc_mret : MRet Proc := @Proc_ret.
#[global] Instance Proc_mbind : MBind Proc := @Proc_bind.

Definition emit (e : Event) : Proc unit :=
  fun w =>
    (Returned (), {| cwd := cwd w; disk := disk w; events := events w ++ [e] |}).

Definition exit {A} (code : Z) : Proc A := fun w => (Exited code, w).
Definition outOfFuel {A} : Proc A := fun w => (OutOfFuel, w).

Definition consoleError (message : string) : Proc unit :=
  emit (ConsoleError message).
Definition consoleLog (message : string) : Proc unit :=
  emit (ConsoleLog message).

Definition existsSync (path : string) : Proc bool :=
  fun w =>
    let found := NodeFs.existsSync (disk w) (cwd w) path in
    (Returned found,
     {| cwd := cwd w; disk := disk w;
        events := events w ++ [ExistsSync path found] |}).

Definition pathResolve (path : string) : Proc string :=
  fun w => (Returned (NodePath.resolve (cwd w) [path]), w).

(** The exit status the operating system sees: the argument of
    [process.exit], [0] when the script runs to its end, [1] when an
    exception escapes the top-level [await]. *)
Definition exitCode {A} (o : Outcome A) : option Z :=
  match o with
  | Returned _ => Some 0
  | Exited code => Some code
  | Threw _ => Some 1
  | OutOfFuel => None
  end.

(** ** The collaborators: ts-morph and the migration

    The script calls five operations of ts-morph ([new Project],
    [getSourceFiles], [removeSourceFile], [addSourceFileAtPath], [save]) and
    one function of [./migrate.ts]. What the project does with its source
    files is modelled here; reading a configuration, parsing, printing and
    what can go wrong in a write stay operations of the interface. *)

Inductive Try (A : Type) :=
| Ok (a : A)
| Throws (e : Thrown).
Arguments Ok {A} a.
Arguments Throws {A} e.

Class TsMorph := {
  CompilerOptions : Type;
  Tree : Type;
  (** Reading [tsconfig.json]: the compiler options and the source files the
      configuration names, with their trees. *)
  loadTsConfig :
    gmap (list string) NodeFs.Node → string →
    Try (CompilerOptions * list (string * Tree));
  parseText : CompilerOptions → string → string → Try Tree;
  (** The syntax errors the parser found in the text and recovered from;
      the script never asks for them. *)
  syntacticDiagnostics : Tree → list string;
  printTree : Tree → string;
  (** [save] writes through the file system host of the project. A write
      that the directory structure allows can still fail (no space left, no
      permission, an I/O error): [writeFault path text] is [None] when the
      write goes through; otherwise the write fails, having left the file
      with [partial] as content for [Some (Some partial)], or as it was for
      [Some None]. *)
  writeFault : string → string → option (option string)
}.

Record SourceFile `{TsMorph} := {
  getFilePath : string;
  tree : Tree;
  isSaved : bool
}.

(** The project keeps its source files in a cache keyed by file path. *)
Record Project `{TsMorph} := {
  compilerOptions : CompilerOptions;
  sourceFiles : gmap string SourceFile
}.

Record MigrationOptions := { migrateImportDeclarations : bool }.

(** [migrateZodV3ToV4] changes the source file in place and may throw part
    of the way: it yields the file as it left it, and what it threw. *)
Class Migration `{TsMorph} := {
  migrateZodV3ToV4 : SourceFile → MigrationOptions → SourceFile * option Thrown
}.

Section Project.
Context {tsMorph : TsMorph}.

(** [new Project({ tsConfigFilePath, skipFileDependencyResolution: true })]:
    the files of the configuration are added, their imports are not
    followed. *)
Definition newProject (tsConfigFilePath : string) : Proc Project :=
  fun w =>
    match loadTsConfig (disk w) tsConfigFilePath with
    | Throws e => (Threw e, w)
    | Ok (options, loaded) =>
        (Returned
           {| compilerOptions := options;
              sourceFiles :=
                foldl (fun cache '(path, t) =>
                         <[path := {| getFilePath := path; tree := t;
                                      isSaved := true |}]> cache)
                      ∅ loaded |},
         {| cwd := cwd w; disk := disk w;
            events := events w ++ ReadFile tsConfigFilePath
                               :: ((fun f => ReadFile f.1) <$> loaded) |})
    end.

Definition getSourceFiles (project : Project) : list SourceFile :=
  (map_to_list (sourceFiles project)).*2.

Definition removeSourceFile (project : Project) (file : SourceFile)
  : Project :=
  {| compilerOptions := compilerOptions project;
     sourceFiles := delete (getFilePath file) (sourceFiles project) |}.

(** [project.addSourceFileAtPath(path)]: the cached file when the project
    has one at the path, else the file read from disk and parsed. *)
Definition addSourceFileAtPath (project : Project) (filePath : string)
  : Proc (Project * SourceFile) :=
  fun w =>
    let standardized := NodePath.resolve (cwd w) [filePath] in
    match sourceFiles project !! standardized with
    | Some file => (Returned (project, file), w)
    | None =>
        let w' := {| cwd := cwd w; disk := disk w;
                     events := events w ++ [ReadFile standardized] |} in
        match NodeFs.readFile (disk w) (cwd w) standardized with
        | None =>
            (Threw (ErrorObject ("File not found: " +:+ standardized)), w')
        | Some text =>
            match parseText (compilerOptions project) standardized text with
            | Throws e => (Threw e, w')
            | Ok t =>
                let file := {| getFilePath := standardized; tree := t;
                               isSaved := true |} in
                (Returned
                   ({| compilerOptions := compilerOptions project;
                       sourceFiles :=
                         <[standardized := file]> (sourceFiles project) |},
                    file),
                 w')
            end
        end
    end.

(** The source file object is shared between the project and the caller:
    what the migration did to it is what the project holds. *)
Definition replaceSourceFile (project : Project) (old new : SourceFile)
  : Project :=
  {| compilerOptions := compilerOptions project;
     sourceFiles :=
       <[getFilePath new := new]>
         (delete (getFilePath old) (sourceFiles project)) |}.

(** One write of [save]. It fails, with nothing changed, when the directory
    structure does not allow it; it can fail for the reasons of
    [writeFault], and then the file may be left with partial content. *)
Definition writeSourceFile (file : SourceFile) : Proc unit :=
  fun w =>
    let text := printTree (tree file) in
    match NodeFs.writeFile (disk w) (cwd w) (getFilePath file) text with
    | None =>
        (Threw (ErrorObject ("Cannot write " +:+ getFilePath file)), w)
    | Some disk' =>
        match writeFault (getFilePath file) text with
        | None =>
            (Returned (),
             {| cwd := cwd w; disk := disk';
                events := events w ++ [WriteFile (getFilePath file) text] |})
        | Some None =>
            (Threw (ErrorObject ("Cannot write " +:+ getFilePath file)), w)
        | Some (Some partial) =>
            (Threw (ErrorObject ("Cannot write " +:+ getFilePath file)),
             {| cwd := cwd w;
                disk := default (disk w)
                          (NodeFs.writeFile (disk w) (cwd w)
                             (getFilePath file) partial);
                events := events w |})
        end
    end.

Fixpoint saveAll (files : list SourceFile) : Proc unit :=
  match files with
  | [] => mret ()
  | file :: rest =>
      (if isSaved file then mret () else writeSourceFile file);;
      saveAll rest
  end.

(** [project.save()]: every source file with unsaved changes is written
    to its path. *)
Definition save (project : Project) : Proc Project :=
  saveAll (getSourceFiles project);;
  mret {| compilerOptions := compilerOptions project;
          sourceFiles :=
            (fun file => {| getFilePath := getFilePath file;
                            tree := tree file; isSaved := true |})
            <$> sourceFiles project |}.

End Project.

(** ** The script, [src/index.ts] *)

(** [!value] for a [string | undefined] or [string | null]. *)
Definition not_ (value : option string) : bool :=
  match value with
  | None => true
  | Some s => bool_decide (s = EmptyString)
  end.

Record ValidationResult := {
  success : bool;
  reason : option string
}.

(** The two failures of the validator, by the names the design gives them. *)
Definition InvalidExtension : ValidationResult :=
  {| success := false;
     reason := Some "Please enter a valid TypeScript/JavaScript file path (.ts, .tsx, .js, .jsx)." |}.
Definition FileNotFound : ValidationResult :=
  {| success := false; reason := Some "File not found." |}.
Definition Valid : ValidationResult :=
  {| success := true; reason := None |}.

Definition validExtensions : list string := [".ts"; ".tsx"; ".js"; ".jsx"].

Definition quote : string := String "034"%char EmptyString.

Section Script.
Context {tsMorph : TsMorph} {migration : Migration}.

(** Lines 90-109. *)
Definition validateFilePath (filePath : string) : Proc ValidationResult :=
  let ext := NodePath.extname filePath in
  if negb (bool_decide (ext ∈ validExtensions)) then mret InvalidExtension
  else
    found ← existsSync filePath;
    if negb found then mret FileNotFound
    else mret Valid.

(** Lines 29-40, the [while (true)] loop; [fuel] bounds the number of
    directories visited. *)
Fixpoint closestFrom (fuel : nat) (currentDir : string)
  : Proc (option string) :=
  match fuel with
  | O => outOfFuel
  | S fuel' =>
      let tsConfigPath := NodePath.join [currentDir; "tsconfig.json"] in
      found ← existsSync tsConfigPath;
      if (found : bool) then mret (Some tsConfigPath)
      else
        let parentDir := NodePath.dirname currentDir in
        if bool_decide (parentDir = currentDir) then mret None
        else closestFrom fuel' parentDir
  end.

(** Lines 27-41. The loop has no bound of its own; the budget given here
    is enough for every directory (see [closestFrom_enough]). *)
Definition findClosestTsConfig (startDir : string) : Proc (option string) :=
  currentDir ← pathResolve startDir;
  closestFrom (String.length currentDir + 2) currentDir.

(** Lines 59-70 of [runMigration]: the project of the configuration, with
    whatever it loaded removed and the one file added. *)
Definition scopedProject (tsConfigFilePath absoluteFilePath : string)
  : Proc (Project * SourceFile) :=
  project ← newProject tsConfigFilePath;
  let project :=
    foldl removeSourceFile project (getSourceFiles project) in
  addSourceFileAtPath project absoluteFilePath.

(** Lines 75-79: the message of the [catch] block. *)
Definition failureMessage (sourceFile : SourceFile) (err : Thrown)
  : string :=
  let message := "Failed to migrate " +:+ getFilePath sourceFile in
  let message :=
    match err with
    | ErrorObject reason => message +:+ "
Reason: " +:+ reason
    | NotAnError => message
    end in
  message +:+ "

Please report this at https://github.com/nicoespeon/zod-v3-to-v4/issues".

(** Lines 74-81, the [catch] block. *)
Definition reportFailure (sourceFile : SourceFile) (err : Thrown)
  : Proc unit :=
  consoleError (failureMessage sourceFile err);;
  exit 1.

(** Lines 72-87 of [runMigration]: the migration inside [try], the
    [catch] block, and the save that follows. *)
Definition migrateAndSave (project : Project) (sourceFile : SourceFile)
  : Proc unit :=
  let '(migrated, thrown) :=
    migrateZodV3ToV4 sourceFile {| migrateImportDeclarations := true |} in
  let project := replaceSourceFile project sourceFile migrated in
  match thrown with
  | Some err => reportFailure migrated err
  | None =>
      save project;;
      consoleLog "File has been migrated successfully."
  end.

Definition noTsConfigMessage : string :=
  "Error: No tsconfig.json found. Please ensure there's a tsconfig.json in the project.".

(** What the two [console.log] calls of lines 54-55 leave in the world. *)
Definition announce (tsConfigFilePath absoluteFilePath : string)
  : Proc unit :=
  consoleLog ("Found tsconfig.json at: " +:+ tsConfigFilePath);;
  consoleLog ("Processing file: " +:+ absoluteFilePath).

(** Lines 43-88. *)
Definition runMigration (filePath : string) : Proc unit :=
  absoluteFilePath ← pathResolve filePath;
  let fileDir := NodePath.dirname absoluteFilePath in
  tsConfigFilePath ← findClosestTsConfig fileDir;
  (if not_ tsConfigFilePath then
     consoleError noTsConfigMessage;;
     exit 1
   else mret ());;
  let tsConfigFilePath := default EmptyString tsConfigFilePath in
  announce tsConfigFilePath absoluteFilePath;;
  '(project, sourceFile) ← scopedProject tsConfigFilePath absoluteFilePath;
  migrateAndSave project sourceFile.

(** Lines 10-25, the top-level statements; [argv] is [process.argv]. *)
Definition main (argv : list string) : Proc unit :=
  let args := drop 2 argv in
  let filePath := args !! 0%nat in
  (if not_ filePath then
     consoleError "Error: No file path provided.";;
     consoleError "Usage: zod-v3-to-v4 <path-to-file>";;
     exit 1
   else mret ());;
  let filePath := default EmptyString filePath in
  isValid ← validateFilePath filePath;
  (if negb (success isValid) then
     consoleError ("Error: " +:+ quote +:+ filePath +:+ quote
                   +:+ " is not a valid TypeScript file. "
                   +:+ default "undefined" (reason isValid));;
     exit 1
   else mret ());;
  runMigration filePath.

End Script.

(** ** Vocabulary of the statements *)

(** The ancestors of a directory: [ancestor k dir] is [k] levels up. *)
Definition ancestor (k : nat) (dir : string) : string :=
  Nat.iter k NodePath.dirname dir.

(** Whether a directory holds something named [tsconfig.json], as the
    locator asks it. *)
Definition hasTsConfig (w : World) (dir : string) : bool :=
  NodeFs.existsSync (disk w) (cwd w) (NodePath.join [dir; "tsconfig.json"]).

Definition isConsoleError (e : Event) : bool :=
  match e with
  | ConsoleError _ => true
  | _ => false
  end.

Definition isWriteFile (e : Event) : bool :=
  match e with
  | WriteFile _ _ => true
  | _ => false
  end.

(** What lines 14-15 print. *)
Definition usage : list Event :=
  [ConsoleError "Error: No file path provided.";
   ConsoleError "Usage: zod-v3-to-v4 <path-to-file>"].

Definition isExited {A} (o : Outcome A) : bool :=
  match o with
  | Exited _ => true
  | _ => false
  end.

(** The world after more events, nothing else changed. *)
Definition after (w : World) (es : list Event) : World :=
  {| cwd := cwd w; disk := disk w; events := events w ++ es |}.

Section Stages.
Context {tsMorph : TsMorph} {migration : Migration}.

(** The run gets as far as the migration: there is a path argument, it is
    valid, a configuration is found, and the builder hands over [project]
    and [sourceFile], leaving the world [w3]. *)
Definition reachesMigration (argv : list string) (w : World)
    (project : Project) (sourceFile : SourceFile) (w3 : World) : Prop :=
  ∃ filePath w1 tsConfigFilePath w2,
    drop 2 argv !! 0%nat = Some filePath
    ∧ filePath ≠ EmptyString
    ∧ validateFilePath filePath w = (Returned Valid, w1)
    ∧ findClosestTsConfig
        (NodePath.dirname (NodePath.resolve (cwd w1) [filePath])) w1
      = (Returned (Some tsConfigFilePath), w2)
    ∧ scopedProject tsConfigFilePath (NodePath.resolve (cwd w1) [filePath])
        (after w2
           [ConsoleLog ("Found tsconfig.json at: " +:+ tsConfigFilePath);
            ConsoleLog ("Processing file: "
                        +:+ NodePath.resolve (cwd w1) [filePath])])
      = (Returned (project, sourceFile), w3).

(** Every stage of the pipeline succeeds: the run reaches the migration,
    the migration does not throw, and the save goes through. *)
Definition pipelineSucceeds (argv : list string) (w : World) : Prop :=
  ∃ project sourceFile w3 migrated project' w4,
    reachesMigration argv w project sourceFile w3
    ∧ migrateZodV3ToV4 sourceFile {| migrateImportDeclarations := true |}
      = (migrated, None)
    ∧ save (replaceSourceFile project sourceFile migrated) w3
      = (Returned project', w4).

End Stages.

(** ** A small project on disk, and collaborators to run the script with *)

Module Example.

Definition projectDisk : gmap (list string) NodeFs.Node :=
  list_to_map
    [ ([], NodeFs.Directory);
      (["proj"], NodeFs.Directory);
      (["proj"; "tsconfig.json"], NodeFs.File "{ }");
      (["proj"; "src"], NodeFs.Directory);
      (["proj"; "src"; "a.ts"], NodeFs.File "import { z } from 'zod'");
      (["proj"; "src"; "b.ts"], NodeFs.File "export const b = 1");
      (["proj"; "src"; "broken.ts"], NodeFs.File "<<<<<<<");
      (["proj"; "src"; "lib.ts"], NodeFs.Directory);
      (["tmp"], NodeFs.Directory);
      (["tmp"; "c.ts"], NodeFs.File "export {}") ].

Definition world : World :=
  {| cwd := "/proj"; disk := projectDisk; events := [] |}.

(** A tree is its text; the configuration names two files. As the
    TypeScript parser does, [parseText] returns a tree for every text: a
    conflict marker at the start is a syntax error, reported among the
    diagnostics. Writes go through. *)
#[export] Instance engine : TsMorph := {|
  CompilerOptions := unit;
  Tree := string;
  loadTsConfig := fun _ _ =>
    Ok ((), [("/proj/src/a.ts", "import { z } from 'zod'");
             ("/proj/src/b.ts", "export const b = 1")]);
  parseText := fun _ _ text => Ok text;
  syntacticDiagnostics := fun t =>
    if String.prefix "<<<<<<<" t
    then ["Merge conflict marker encountered."]
    else [];
  printTree := fun t => t;
  writeFault := fun _ _ => None
|}.

Definition rewrite (file : SourceFile) : SourceFile :=
  {| getFilePath := getFilePath file;
     tree := tree file +:+ " /* zod 4 */";
     isSaved := false |}.

#[export] Instance migrates : Migration := {|
  migrateZodV3ToV4 := fun file _ => (rewrite file, None)
|}.

(** A migration that throws after it has changed the file. *)
Definition raises : Migration := {|
  migrateZodV3ToV4 := fun file _ =>
    (rewrite file, Some (ErrorObject "Unsupported syntax"))
|}.

Definition argv (filePath : string) : list string :=
  ["node"; "zod-v3-to-v4"; filePath].

(** What the builder makes of [src/a.ts]. *)
Definition targetFile : SourceFile :=
  {| getFilePath := "/proj/src/a.ts"; tree := "import { z } from 'zod'";
     isSaved := true |}.

Definition targetProject : Project :=
  {| compilerOptions := ();
     sourceFiles := {["/proj/src/a.ts" := targetFile]} |}.

(** What the builder makes of [src/broken.ts], syntax errors and all. *)
Definition brokenFile : SourceFile :=
  {| getFilePath := "/proj/src/broken.ts"; tree := "<<<<<<<";
     isSaved := true |}.

Definition brokenProject : Project :=
  {| compilerOptions := ();
     sourceFiles := {["/proj/src/broken.ts" := brokenFile]} |}.

End Example.

(** ** More scenarios: nested configurations, a migration that changes nothing *)

Module Scenario.

(** The example project with a second [tsconfig.json], inside [src]. *)
Definition nestedDisk : gmap (list string) NodeFs.Node :=
  <[["proj"; "src"; "tsconfig.json"] := NodeFs.File "{ }"]> Example.projectDisk.

Definition nestedWorld : World :=
  {| cwd := "/proj"; disk := nestedDisk; events := [] |}.

(** A migration that finds nothing to change. *)
Definition noop {tsMorph : TsMorph} : Migration := {|
  migrateZodV3ToV4 := fun file _ => (file, None)
|}.

End Scenario.

(** What the last [console.log] of [runMigration] prints. *)
Definition successMessage : string := "File has been migrated successfully.".

(** Events that neither write a file nor announce success. *)
Definition quiet (e : Event) : Prop :=
  isWriteFile e = false ∧ e ≠ ConsoleLog successMessage.

(** The question the locator asks about the ancestor [k] levels above
    [start], with the answer of the disk. *)
Definition probe (w : World) (start : string) (k : nat) : Event :=
  ExistsSync (NodePath.join [ancestor k start; "tsconfig.json"])
    (hasTsConfig w (ancestor k start)).

(** * Properties *)

Ltac unfold_proc :=
  unfold mbind, mret, Proc_mbind, Proc_mret, Proc_bind, Proc_ret,
    consoleError, consoleLog, emit, exit, outOfFuel,
    existsSync, pathResolve in *.

(** ** [path.dirname] shortens its argument *)

Section Dirname.
Import NodePath.

Lemma dirnameScan_bounds path i matchedSlash e :
  dirnameScan path i matchedSlash = Some e →
  (1 ≤ e ≤ i)%nat ∧ (matchedSlash = true → (e < i)%nat).
Proof.
  revert matchedSlash. induction i as [|j IH]; intros m; simpl; [done|].
  destruct (isSlashAt path _).
  - destruct m.
    + intros Hs. apply IH in Hs as [? ?]. lia.
    + intros [= <-]. split; [lia | done].
  - intros Hs. apply IH in Hs as [? ?]. lia.
Qed.

Lemma length_prefix n s :
  (n ≤ String.length s)%nat → String.length (String.substring 0 n s) = n.
Proof.
  revert s. induction n as [|n IH]; intros [|c s] Hn; simpl in *;
    try done; try lia.
  rewrite IH; lia.
Qed.

(** Either [dirname] has arrived at one of its two fixed points, or the
    result is strictly shorter than the argument. *)
Lemma dirname_shrinks path :
  dirname path = "/" ∨ dirname path = "."
  ∨ (String.length (dirname path) < String.length path)%nat.
Proof.
  unfold dirname. destruct (String.length path) as [|last] eqn:Hlen; [auto|].
  destruct (dirnameScan path last true) as [e|] eqn:Hscan.
  - apply dirnameScan_bounds in Hscan as [He Hlt].
    specialize (Hlt eq_refl). right; right.
    destruct (isSlashAt path 0 && bool_decide (e = 1%nat)); simpl.
    + lia.
    + rewrite length_prefix; lia.
  - destruct (isSlashAt path 0); auto.
Qed.

Lemma dirname_fixed_slash : dirname "/" = "/".
Proof. reflexivity. Qed.

Lemma dirname_fixed_dot : dirname "." = ".".
Proof. reflexivity. Qed.

(** A directory that is not its own parent has a strictly shorter parent,
    unless the parent is already the end of the walk. *)
Lemma dirname_step path :
  dirname (dirname path) = dirname path
  ∨ (String.length (dirname path) < String.length path)%nat.
Proof.
  destruct (dirname_shrinks path) as [-> | [-> | ?]]; auto.
Qed.

Lemma ancestor_S k dir : ancestor (S k) dir = ancestor k (dirname dir).
Proof.
  unfold ancestor. induction k as [|k IH]; simpl; [done|]. by rewrite <- IH.
Qed.

Lemma ancestor_fixed k dir : dirname dir = dir → ancestor k dir = dir.
Proof.
  intros Hfix. unfold ancestor. induction k as [|k IH]; simpl; [done|].
  by rewrite IH.
Qed.

End Dirname.

(** ** The upward walk of [findClosestTsConfig] *)

Section Locator.
Import NodePath.

Lemma after_after w es es' : after (after w es) es' = after w (es ++ es').
Proof. unfold after; simpl. by rewrite <- app_assoc. Qed.

Lemma after_nil w : after w [] = w.
Proof. destruct w. unfold after; simpl. by rewrite app_nil_r. Qed.

Lemma hasTsConfig_after w es dir :
  hasTsConfig (after w es) dir = hasTsConfig w dir.
Proof. reflexivity. Qed.

Lemma existsSync_run path w :
  existsSync path w
  = (Returned (NodeFs.existsSync (disk w) (cwd w) path),
     after w [ExistsSync path (NodeFs.existsSync (disk w) (cwd w) path)]).
Proof. reflexivity. Qed.

(** One turn of the loop. *)
Lemma closestFrom_S fuel dir w :
  closestFrom (S fuel) dir w =
    let probe := ExistsSync (join [dir; "tsconfig.json"]) (hasTsConfig w dir) in
    if hasTsConfig w dir then
      (Returned (Some (join [dir; "tsconfig.json"])), after w [probe])
    else if bool_decide (dirname dir = dir) then
      (Returned None, after w [probe])
    else closestFrom fuel (dirname dir) (after w [probe]).
Proof.
  simpl. unfold mbind, Proc_mbind, Proc_bind. rewrite existsSync_run.
  unfold hasTsConfig. destruct (NodeFs.existsSync _ _ _); [done|].
  by destruct (bool_decide _).
Qed.

(** The walk only looks: it leaves the disk alone and records its
    probes, at least one of them. *)
Lemma closestFrom_probes fuel dir w o w' :
  closestFrom fuel dir w = (o, w') →
  ∃ es, w' = after w es
        ∧ Forall (λ e, ∃ path found, e = ExistsSync path found) es
        ∧ (o ≠ OutOfFuel → es ≠ []).
Proof.
  revert dir w. induction fuel as [|fuel IH]; intros dir w.
  - intros [= <- <-]. exists []. by rewrite after_nil.
  - rewrite closestFrom_S. cbv zeta.
    set (probe := ExistsSync _ _).
    assert (Hprobe : Forall (λ e, ∃ path found, e = ExistsSync path found)
                       [probe]) by (repeat constructor; eauto).
    destruct (hasTsConfig w dir); [|destruct (bool_decide _)].
    + intros [= <- <-]. by exists [probe].
    + intros [= <- <-]. by exists [probe].
    + intros Hrec. apply IH in Hrec as (es & -> & Hes & _).
      exists (probe :: es). rewrite after_after. simpl.
      split; [done|]. split; [by constructor; [eauto|]|done].
Qed.

(** With the budget [findClosestTsConfig] gives it, the loop comes to its
    own end. *)
Lemma closestFrom_enough n dir :
  (String.length dir < n)%nat →
  ∀ fuel w, (n < fuel)%nat →
    ∃ r w', closestFrom fuel dir w = (Returned r, w').
Proof.
  revert dir. induction n as [|n IH]; intros dir Hlen fuel w Hfuel; [lia|].
  destruct fuel as [|fuel]; [lia|]. rewrite closestFrom_S. cbv zeta.
  destruct (hasTsConfig w dir); [eauto|].
  destruct (bool_decide _); [eauto|].
  destruct (dirname_shrinks dir) as [Hend | [Hend | Hshort]].
  - rewrite Hend. destruct fuel as [|fuel]; [lia|]. rewrite closestFrom_S.
    cbv zeta. destruct (hasTsConfig _ _); eauto.
  - rewrite Hend. destruct fuel as [|fuel]; [lia|]. rewrite closestFrom_S.
    cbv zeta. destruct (hasTsConfig _ _); eauto.
  - apply IH; lia.
Qed.

(** More budget does not change an answer. *)
Lemma closestFrom_mono fuel dir w r w' :
  closestFrom fuel dir w = (Returned r, w') →
  ∀ fuel', (fuel ≤ fuel')%nat → closestFrom fuel' dir w = (Returned r, w').
Proof.
  revert dir w. induction fuel as [|fuel IH]; intros dir w; [done|].
  intros Hrun [|fuel'] Hle; [lia|]. revert Hrun. rewrite !closestFrom_S.
  cbv zeta. destruct (hasTsConfig w dir); [done|].
  destruct (bool_decide _); [done|]. intros Hrun. apply (IH _ _ Hrun). lia.
Qed.

(** The walk stops at the first ancestor that holds a [tsconfig.json]. *)
Lemma closestFrom_nearest d :
  ∀ fuel dir w,
    (d < fuel)%nat →
    hasTsConfig w (ancestor d dir) = true →
    (∀ k, (k < d)%nat → hasTsConfig w (ancestor k dir) = false) →
    ∃ w', closestFrom fuel dir w
          = (Returned (Some (join [ancestor d dir; "tsconfig.json"])), w').
Proof.
  induction d as [|d IH]; intros fuel dir w Hfuel Hd Hbefore;
    (destruct fuel as [|fuel]; [lia|]); rewrite closestFrom_S; cbv zeta.
  - change (ancestor 0 dir) with dir in *. rewrite Hd. eauto.
  - pose proof (Hbefore 0%nat ltac:(lia)) as Hhere.
    change (ancestor 0 dir) with dir in Hhere. rewrite Hhere.
    destruct (bool_decide_reflect (dirname dir = dir)) as [Hfix|Hne].
    + rewrite ancestor_fixed in Hd by done. congruence.
    + rewrite ancestor_S. apply IH; [lia| |].
      * by rewrite hasTsConfig_after, <- ancestor_S.
      * intros k Hk. rewrite hasTsConfig_after, <- ancestor_S.
        apply Hbefore. lia.
Qed.

(** Without a [tsconfig.json] in any ancestor the walk finds none. *)
Lemma closestFrom_none fuel :
  ∀ dir w r w',
    (∀ k, hasTsConfig w (ancestor k dir) = false) →
    closestFrom fuel dir w = (Returned r, w') → r = None.
Proof.
  induction fuel as [|fuel IH]; intros dir w r w' Hnone; [done|].
  rewrite closestFrom_S. cbv zeta. pose proof (Hnone 0%nat) as Hhere.
  change (ancestor 0 dir) with dir in Hhere. rewrite Hhere.
  destruct (bool_decide _); [by intros [= <- <-]|].
  apply IH. intros k. rewrite hasTsConfig_after, <- ancestor_S. apply Hnone.
Qed.

(** What the walk returns is a path that [path.join] made. *)
Lemma closestFrom_joined fuel :
  ∀ dir w found w',
    closestFrom fuel dir w = (Returned (Some found), w') →
    ∃ dir', found = join [dir'; "tsconfig.json"].
Proof.
  induction fuel as [|fuel IH]; intros dir w found w'; [done|].
  rewrite closestFrom_S. cbv zeta.
  destruct (hasTsConfig w dir); [intros [= <- <-]; eauto|].
  destruct (bool_decide _); [done|]. apply IH.
Qed.

Lemma findClosestTsConfig_run startDir w :
  findClosestTsConfig startDir w
  = closestFrom (String.length (resolve (cwd w) [startDir]) + 2)
      (resolve (cwd w) [startDir]) w.
Proof. reflexivity. Qed.

Lemma findClosestTsConfig_returns startDir w :
  ∃ r es, findClosestTsConfig startDir w = (Returned r, after w es)
          ∧ Forall (λ e, ∃ path found, e = ExistsSync path found) es
          ∧ es ≠ [].
Proof.
  rewrite findClosestTsConfig_run.
  destruct (closestFrom_enough (S (String.length (resolve (cwd w) [startDir])))
              (resolve (cwd w) [startDir]) ltac:(lia)
              (String.length (resolve (cwd w) [startDir]) + 2)%nat w
              ltac:(lia)) as (r & w' & Hrun).
  destruct (closestFrom_probes _ _ _ _ _ Hrun) as (es & -> & Hes & Hne).
  exists r, es. by auto.
Qed.

End Locator.

(** ** Absolute paths stay absolute *)

Section Absolute.
Import NodePath.

Lemma isSlashAt_0_cons c rest :
  isSlashAt (String c rest) 0 = bool_decide (c = SLASH).
Proof. reflexivity. Qed.

Lemma isSlashAt_0_app path rest :
  isSlashAt path 0 = true → isSlashAt (path +:+ rest) 0 = true.
Proof. by destruct path. Qed.

Lemma isSlashAt_0_nonempty path :
  isSlashAt path 0 = true → (Js.len path =? 0) = false.
Proof. by destruct path. Qed.

Lemma resolveLoop_absolute cwd_ pending resolvedPath :
  isSlashAt cwd_ 0 = true →
  (resolveLoop (pending ++ [cwd_]) resolvedPath).2 = true.
Proof.
  intros Habs. revert resolvedPath.
  induction pending as [|path rest IH]; intros resolvedPath; simpl.
  - by rewrite isSlashAt_0_nonempty, Habs.
  - destruct (Js.len path =? 0); [apply IH|].
    destruct (isSlashAt path 0); [done | apply IH].
Qed.

Lemma resolve_absolute cwd_ args :
  isSlashAt cwd_ 0 = true → isSlashAt (resolve cwd_ args) 0 = true.
Proof.
  intros Habs. unfold resolve.
  pose proof (resolveLoop_absolute cwd_ (rev args) EmptyString Habs) as Hloop.
  destruct (resolveLoop _ _) as [resolvedPath resolvedAbsolute].
  simpl in Hloop. by subst.
Qed.

Lemma substring_head n path :
  String.get 0 (String.substring 0 (S n) path) = String.get 0 path.
Proof. by destruct path. Qed.

Lemma dirname_absolute path :
  isSlashAt path 0 = true → isSlashAt (dirname path) 0 = true.
Proof.
  intros Habs. unfold dirname.
  destruct (String.length path) eqn:Hlen; [by destruct path|].
  rewrite Habs. destruct (dirnameScan _ _ _) as [e|] eqn:Hscan; [|done].
  apply dirnameScan_bounds in Hscan as [He _].
  destruct (bool_decide _); [done|]. destruct e as [|e]; [lia|].
  unfold isSlashAt, Js.charAt in *. simpl in *. by rewrite substring_head.
Qed.

Lemma ancestor_absolute k path :
  isSlashAt path 0 = true → isSlashAt (ancestor k path) 0 = true.
Proof.
  intros Habs. induction k as [|k IH]; [done|]. simpl.
  by apply dirname_absolute.
Qed.

Lemma normalize_absolute path :
  isSlashAt path 0 = true → isSlashAt (normalize path) 0 = true.
Proof.
  intros Habs. unfold normalize.
  rewrite isSlashAt_0_nonempty, Habs by done.
  by destruct (Js.len _ =? 0).
Qed.

Lemma join_absolute dir name :
  isSlashAt dir 0 = true → isSlashAt (join [dir; name]) 0 = true.
Proof.
  intros Habs. unfold join.
  assert (Hdir : 0 < Js.len dir).
  { destruct dir; [done|]. unfold Js.len. simpl. lia. }
  rewrite filter_cons_True by done.
  destruct (filter _ [name]) as [|name' rest'] eqn:Hrest.
  - by apply normalize_absolute.
  - apply normalize_absolute.
    change (Js.join "/" (dir :: name' :: rest'))
      with (dir +:+ "/" +:+ Js.join "/" (name' :: rest')).
    by apply isSlashAt_0_app.
Qed.

(** [path.join] never yields the empty string. *)
Lemma normalize_nonempty path : normalize path ≠ EmptyString.
Proof.
  unfold normalize. destruct (Js.len path =? 0); [done|].
  destruct (Js.len (normalizeString _ _) =? 0) eqn:Hempty.
  - by repeat case_match.
  - destruct (normalizeString _ _) as [|c rest]; [done|].
    by repeat case_match.
Qed.

Lemma join_nonempty args : join args ≠ EmptyString.
Proof.
  unfold join. case_match; [done|]. apply normalize_nonempty.
Qed.

End Absolute.

(** ** Claims about the Configuration Locator *)

Section LocatorClaims.
Import NodePath.

Lemma first_true_or_none (P : nat → bool) d :
  (∃ d0, (d0 < d)%nat ∧ P d0 = true ∧ ∀ k, (k < d0)%nat → P k = false)
  ∨ (∀ k, (k < d)%nat → P k = false).
Proof.
  induction d as [|d [(d0 & ? & ? & ?) | Hnone]].
  - right. intros; lia.
  - left. exists d0. split; [lia|done].
  - destruct (P d) eqn:Hd.
    + left. exists d. split; [lia|done].
    + right. intros k Hk. destruct (decide (k = d)) as [->|]; [done|].
      apply Hnone. lia.
Qed.

Lemma first_true (P : nat → bool) d :
  P d = true →
  ∃ d0, (d0 ≤ d)%nat ∧ P d0 = true ∧ ∀ k, (k < d0)%nat → P k = false.
Proof.
  intros Hd. destruct (first_true_or_none P (S d))
    as [(d0 & ? & ? & ?) | Hnone].
  - exists d0. split; [lia|done].
  - rewrite Hnone in Hd by lia. done.
Qed.

Lemma ancestors_reach_root bound :
  ∀ dir, (String.length dir < bound)%nat →
    ∃ n, (n ≤ String.length dir + 1)%nat
         ∧ dirname (ancestor n dir) = ancestor n dir
         ∧ ∀ k, (S k < n)%nat →
                (String.length (ancestor (S k) dir)
                 < String.length (ancestor k dir))%nat.
Proof.
  induction bound as [|bound IH]; intros dir Hlen; [lia|].
  destruct (dirname_shrinks dir) as [Hend | [Hend | Hshort]].
  - exists 1%nat. split; [lia|]. split; [|intros; lia].
    change (ancestor 1 dir) with (dirname dir). by rewrite Hend.
  - exists 1%nat. split; [lia|]. split; [|intros; lia].
    change (ancestor 1 dir) with (dirname dir). by rewrite Hend.
  - destruct (IH (dirname dir) ltac:(lia)) as (n & Hn & Hfix & Hdown).
    exists (S n). split; [lia|]. split; [by rewrite ancestor_S|].
    intros [|k] Hk.
    + change (ancestor 1 dir) with (dirname dir). done.
    + pose proof (Hdown k ltac:(lia)) as Hstep.
      by rewrite <- (ancestor_S (S k) dir), <- (ancestor_S k dir) in Hstep.
Qed.

(** C3. From every starting directory, when exactly one directory of the
    ancestor chain holds a [tsconfig.json], at whatever depth [d], the
    locator returns the path of that one (an absolute path when the
    working directory is absolute); when no directory of the chain holds
    one, it returns [null]. *)
Theorem findClosestTsConfig_exactly_one startDir w :
  let start := resolve (cwd w) [startDir] in
  (∀ d,
     hasTsConfig w (ancestor d start) = true →
     (∀ k, ancestor k start ≠ ancestor d start →
           hasTsConfig w (ancestor k start) = false) →
     (findClosestTsConfig startDir w).1
     = Returned (Some (join [ancestor d start; "tsconfig.json"]))
     ∧ (NodeFs.isAbsolute (cwd w) = true →
        NodeFs.isAbsolute (join [ancestor d start; "tsconfig.json"]) = true))
  ∧ ((∀ k, hasTsConfig w (ancestor k start) = false) →
     (findClosestTsConfig startDir w).1 = Returned None).
Proof.
  intros start.
  destruct (findClosestTsConfig_returns startDir w) as (r & es & Hrun & _).
  rewrite Hrun. rewrite findClosestTsConfig_run in Hrun. fold start in Hrun.
  split.
  - intros d Hd Honly. split.
    + destruct (first_true (λ k, hasTsConfig w (ancestor k start)) d Hd)
        as (d0 & Hle & Hd0 & Hbefore).
      assert (Hsame : ancestor d0 start = ancestor d start).
      { destruct (decide (ancestor d0 start = ancestor d start)); [done|].
        rewrite Honly in Hd0; done. }
      destruct (closestFrom_nearest d0
                  (String.length start + 2 + d0) start w ltac:(lia) Hd0 Hbefore)
        as (w' & Hnear).
      rewrite (closestFrom_mono _ _ _ _ _ Hrun (String.length start + 2 + d0)%nat)
        in Hnear by lia.
      injection Hnear as -> _. simpl. by rewrite Hsame.
    + intros Habs. apply join_absolute, ancestor_absolute, resolve_absolute.
      exact Habs.
  - intros Hnone. simpl. f_equal.
    eapply closestFrom_none; [exact Hnone | exact Hrun].
Qed.

(** C4. The upward walk ends on every input: the chain of parent
    directories reaches a directory that is its own parent within
    [length + 1] steps, every step before the last makes the path strictly
    shorter, and [findClosestTsConfig] returns. *)
Theorem findClosestTsConfig_terminates startDir w :
  let start := resolve (cwd w) [startDir] in
  (∃ n, (n ≤ String.length start + 1)%nat
        ∧ dirname (ancestor n start) = ancestor n start
        ∧ ∀ k, (S k < n)%nat →
               (String.length (ancestor (S k) start)
                < String.length (ancestor k start))%nat)
  ∧ ∃ r w', findClosestTsConfig startDir w = (Returned r, w').
Proof.
  intros start. split.
  - apply (ancestors_reach_root (S (String.length start))). lia.
  - destruct (findClosestTsConfig_returns startDir w) as (r & es & Hrun & _).
    eauto.
Qed.

End LocatorClaims.

(** ** Claims about the Path Validator *)

Section ValidatorClaims.
Import NodePath.

Lemma validateFilePath_run filePath w :
  validateFilePath filePath w =
    if bool_decide (extname filePath ∈ validExtensions) then
      let found := NodeFs.existsSync (disk w) (cwd w) filePath in
      (Returned (if found then Valid else FileNotFound),
       after w [ExistsSync filePath found])
    else (Returned InvalidExtension, w).
Proof.
  unfold validateFilePath. destruct (bool_decide _); simpl; [|done].
  unfold mbind, Proc_mbind, Proc_bind. rewrite existsSync_run.
  by destruct (NodeFs.existsSync _ _ _).
Qed.

(** An unrecognized extension is turned down before the disk is asked:
    the world is left exactly as it was. *)
Lemma validateFilePath_bad_extension filePath w :
  extname filePath ∉ validExtensions →
  validateFilePath filePath w = (Returned InvalidExtension, w).
Proof.
  intros Hext. rewrite validateFilePath_run.
  by rewrite bool_decide_eq_false_2.
Qed.

(** C5. On every path the validator answers [InvalidExtension] exactly
    when the extension is not one of the four; with a recognized extension
    it answers [FileNotFound] when nothing exists at the path and succeeds
    otherwise. It has no side effects: working directory and disk are
    unchanged, and all it does is its one question to the file system. *)
Theorem validateFilePath_outcomes filePath w :
  ((validateFilePath filePath w).1 = Returned InvalidExtension
   ↔ extname filePath ∉ validExtensions)
  ∧ (extname filePath ∈ validExtensions →
     NodeFs.existsSync (disk w) (cwd w) filePath = false →
     (validateFilePath filePath w).1 = Returned FileNotFound)
  ∧ (extname filePath ∈ validExtensions →
     NodeFs.existsSync (disk w) (cwd w) filePath = true →
     (validateFilePath filePath w).1 = Returned Valid)
  ∧ cwd (validateFilePath filePath w).2 = cwd w
  ∧ disk (validateFilePath filePath w).2 = disk w
  ∧ ∃ es, events (validateFilePath filePath w).2 = events w ++ es
          ∧ Forall (λ e, ∃ found, e = ExistsSync filePath found) es.
Proof.
  rewrite validateFilePath_run.
  destruct (bool_decide_reflect (extname filePath ∈ validExtensions))
    as [Hext|Hext]; cbv zeta.
  - destruct (NodeFs.existsSync _ _ _) eqn:Hfound; simpl.
    + split; [split; [done | by intros []]|].
      repeat split; try done. eexists; split; [done|].
      repeat constructor. eauto.
    + split; [split; [done | by intros []]|].
      repeat split; try done. eexists; split; [done|].
      repeat constructor. eauto.
  - simpl. split; [done|]. repeat split; try done.
    exists []. by rewrite app_nil_r.
Qed.

(** C6, as amended. When the validator succeeds, the extension of the
    path is recognized and something exists at the path, a file or a
    directory. *)
Theorem validateFilePath_success filePath w r w' :
  validateFilePath filePath w = (Returned r, w') →
  success r = true →
  extname filePath ∈ validExtensions
  ∧ is_Some (NodeFs.stat (disk w) (cwd w) filePath).
Proof.
  rewrite validateFilePath_run.
  destruct (bool_decide_reflect (extname filePath ∈ validExtensions))
    as [Hext|Hext]; cbv zeta; [|by intros [= <- <-]].
  destruct (NodeFs.existsSync _ _ _) eqn:Hfound; [|by intros [= <- <-]].
  intros _ _. split; [done|].
  unfold NodeFs.existsSync in Hfound. by apply bool_decide_eq_true in Hfound.
Qed.

(** C10. A path with an unrecognized extension at which nothing exists is
    answered [InvalidExtension], not [FileNotFound]; the extension is
    checked first and the file system is not asked (the world, its record
    of events included, is unchanged). *)
Theorem validateFilePath_extension_first filePath w :
  extname filePath ∉ validExtensions →
  NodeFs.existsSync (disk w) (cwd w) filePath = false →
  validateFilePath filePath w = (Returned InvalidExtension, w)
  ∧ InvalidExtension ≠ FileNotFound.
Proof.
  intros Hext _. split; [by apply validateFilePath_bad_extension|done].
Qed.

End ValidatorClaims.

(** ** The Scoped Project Builder *)

Section Builder.
Context {tsMorph : TsMorph}.
Import NodePath.

Lemma loaded_keyed (loaded : list (string * Tree))
    (cache : gmap string SourceFile) :
  map_Forall (λ path file, getFilePath file = path) cache →
  map_Forall (λ path file, getFilePath file = path)
    (foldl (fun cache '(path, t) =>
              <[path := {| getFilePath := path; tree := t;
                           isSaved := true |}]> cache)
           cache loaded).
Proof.
  revert cache. induction loaded as [|[path t] rest IH]; intros cache Hk;
    simpl; [done|].
  apply IH. by apply map_Forall_insert_2.
Qed.

Lemma newProject_run tsConfigFilePath w :
  newProject tsConfigFilePath w =
    match loadTsConfig (disk w) tsConfigFilePath with
    | Throws e => (Threw e, w)
    | Ok (options, loaded) =>
        (Returned
           {| compilerOptions := options;
              sourceFiles :=
                foldl (fun cache '(path, t) =>
                         <[path := {| getFilePath := path; tree := t;
                                      isSaved := true |}]> cache)
                      ∅ loaded |},
         after w (ReadFile tsConfigFilePath
                  :: ((fun f => ReadFile f.1) <$> loaded)))
    end.
Proof. reflexivity. Qed.

Lemma removeSourceFiles_lookup (files : list SourceFile) :
  ∀ (project : Project) path,
    sourceFiles (foldl removeSourceFile project files) !! path
    = if decide (path ∈ getFilePath <$> files) then None
      else sourceFiles project !! path.
Proof.
  induction files as [|file rest IH]; intros project path.
  - cbn [foldl]. rewrite fmap_nil.
    case_decide as Hin; [by apply elem_of_nil in Hin | done].
  - rewrite fmap_cons. cbn [foldl]. rewrite IH. cbn [removeSourceFile sourceFiles].
    rewrite lookup_delete.
    destruct (decide (path ∈ getFilePath <$> rest)) as [Hin|Hout].
    + by rewrite decide_True by (apply elem_of_cons; auto).
    + destruct (decide (getFilePath file = path)) as [<-|Hne].
      * by rewrite decide_True by (apply elem_of_cons; auto).
      * by rewrite decide_False by (apply not_elem_of_cons; auto).
Qed.

Lemma removeSourceFiles_options (files : list SourceFile) :
  ∀ project : Project,
    compilerOptions (foldl removeSourceFile project files)
    = compilerOptions project.
Proof.
  induction files as [|file rest IH]; intros project; simpl; [done|].
  by rewrite IH.
Qed.

(** Removing every file that [getSourceFiles] lists empties the cache. *)
Lemma purge_empty (project : Project) :
  map_Forall (λ path file, getFilePath file = path) (sourceFiles project) →
  sourceFiles (foldl removeSourceFile project (getSourceFiles project)) = ∅.
Proof.
  intros Hkeyed. apply map_eq. intros path.
  rewrite removeSourceFiles_lookup, lookup_empty. case_decide as Hin; [done|].
  destruct (sourceFiles project !! path) as [file|] eqn:Hfile; [|done].
  destruct Hin. apply list_elem_of_fmap. exists file.
  split; [symmetry; by apply (Hkeyed path)|].
  unfold getSourceFiles. apply list_elem_of_fmap. exists (path, file).
  split; [done|]. by apply elem_of_map_to_list.
Qed.

Lemma addSourceFileAtPath_fresh (project : Project) filePath w :
  sourceFiles project = ∅ →
  addSourceFileAtPath project filePath w =
    let standardized := resolve (cwd w) [filePath] in
    match NodeFs.readFile (disk w) (cwd w) standardized with
    | None =>
        (Threw (ErrorObject ("File not found: " +:+ standardized)),
         after w [ReadFile standardized])
    | Some text =>
        match parseText (compilerOptions project) standardized text with
        | Throws e => (Threw e, after w [ReadFile standardized])
        | Ok t =>
            let file := {| getFilePath := standardized; tree := t;
                           isSaved := true |} in
            (Returned ({| compilerOptions := compilerOptions project;
                          sourceFiles := {[standardized := file]} |}, file),
             after w [ReadFile standardized])
        end
    end.
Proof.
  intros Hempty. unfold addSourceFileAtPath. rewrite Hempty, lookup_empty.
  cbv zeta. destruct (NodeFs.readFile _ _ _); [|done].
  destruct (parseText _ _ _); [|done]. by rewrite insert_empty.
Qed.

Context {migration : Migration}.

(** The builder step by step. *)
Lemma scopedProject_run tsConfigFilePath absoluteFilePath w :
  scopedProject tsConfigFilePath absoluteFilePath w =
    match loadTsConfig (disk w) tsConfigFilePath with
    | Throws e => (Threw e, w)
    | Ok (options, loaded) =>
        let w1 := after w (ReadFile tsConfigFilePath
                           :: ((fun f => ReadFile f.1) <$> loaded)) in
        let standardized := resolve (cwd w) [absoluteFilePath] in
        match NodeFs.readFile (disk w) (cwd w) standardized with
        | None =>
            (Threw (ErrorObject ("File not found: " +:+ standardized)),
             after w1 [ReadFile standardized])
        | Some text =>
            match parseText options standardized text with
            | Throws e => (Threw e, after w1 [ReadFile standardized])
            | Ok t =>
                let file := {| getFilePath := standardized; tree := t;
                               isSaved := true |} in
                (Returned ({| compilerOptions := options;
                              sourceFiles := {[standardized := file]} |},
                           file),
                 after w1 [ReadFile standardized])
            end
        end
    end.
Proof.
  unfold scopedProject, mbind, Proc_mbind, Proc_bind.
  rewrite newProject_run.
  destruct (loadTsConfig _ _) as [[options loaded]|e]; [|done].
  rewrite addSourceFileAtPath_fresh.
  - cbv zeta. by rewrite removeSourceFiles_options.
  - apply purge_empty. simpl. by apply loaded_keyed, map_Forall_empty.
Qed.

(** The builder reads and never writes. *)
Lemma scopedProject_reads tsConfigFilePath absoluteFilePath w o w' :
  scopedProject tsConfigFilePath absoluteFilePath w = (o, w') →
  ∃ es, w' = after w es
        ∧ Forall (λ e, ∃ path, e = ReadFile path) es.
Proof.
  rewrite scopedProject_run.
  destruct (loadTsConfig _ _) as [[options loaded]|e].
  - assert (Hloaded : Forall (λ e, ∃ path, e = ReadFile path)
                        (ReadFile tsConfigFilePath
                         :: ((fun f : string * Tree => ReadFile f.1) <$> loaded))).
    { constructor; [eauto|]. apply Forall_fmap, Forall_true. simpl. eauto. }
    assert (Hall : Forall (λ e, ∃ path, e = ReadFile path)
              ((ReadFile tsConfigFilePath
                :: ((fun f : string * Tree => ReadFile f.1) <$> loaded))
               ++ [ReadFile (resolve (cwd w) [absoluteFilePath])])).
    { apply Forall_app. split; [done|]. repeat constructor. eauto. }
    cbv zeta. rewrite after_after.
    destruct (NodeFs.readFile _ _ _); [destruct (parseText _ _ _)|];
      intros [= <- <-]; eauto.
  - intros [= <- <-]. exists []. by rewrite after_nil.
Qed.

Lemma scopedProject_outcome tsConfigFilePath absoluteFilePath w o w' :
  scopedProject tsConfigFilePath absoluteFilePath w = (o, w') →
  (∃ built, o = Returned built) ∨ ∃ e, o = Threw e.
Proof.
  rewrite scopedProject_run.
  destruct (loadTsConfig _ _) as [[options loaded]|e];
    [|intros [= <- <-]; eauto].
  cbv zeta. destruct (NodeFs.readFile _ _ _);
    [destruct (parseText _ _ _)|]; intros [= <- <-]; eauto.
Qed.

(** C1. Whatever the configuration makes ts-morph load, the project the
    builder hands over holds exactly one source file, the target file:
    at the target's path, with the tree parsed from the target's text. *)
Theorem scopedProject_single tsConfigFilePath absoluteFilePath w
    project sourceFile w' :
  scopedProject tsConfigFilePath absoluteFilePath w
  = (Returned (project, sourceFile), w') →
  sourceFiles project = {[resolve (cwd w) [absoluteFilePath] := sourceFile]}
  ∧ getSourceFiles project = [sourceFile]
  ∧ getFilePath sourceFile = resolve (cwd w) [absoluteFilePath]
  ∧ ∃ text,
      NodeFs.readFile (disk w) (cwd w) (resolve (cwd w) [absoluteFilePath])
      = Some text
      ∧ parseText (compilerOptions project)
          (resolve (cwd w) [absoluteFilePath]) text
        = Ok (tree sourceFile).
Proof.
  rewrite scopedProject_run.
  destruct (loadTsConfig _ _) as [[options loaded]|e]; [|done].
  cbv zeta. destruct (NodeFs.readFile _ _ _) as [text|] eqn:Hread; [|done].
  destruct (parseText _ _ _) as [t|e] eqn:Hparse; [|done].
  intros [= <- <- <-]. simpl. split; [done|]. split.
  - unfold getSourceFiles. simpl. by rewrite map_to_list_singleton.
  - split; [done|]. eauto.
Qed.

End Builder.

(** ** The script, stage by stage *)

Section Run.
Context {tsMorph : TsMorph} {migration : Migration}.
Import NodePath.

Lemma main_no_argument argv w :
  not_ (drop 2 argv !! 0%nat) = true →
  main argv w = (Exited 1, after w usage).
Proof.
  intros Hnot. unfold main. rewrite Hnot. unfold_proc. simpl.
  unfold after, usage. by rewrite <- app_assoc.
Qed.

Lemma main_argument argv w filePath :
  drop 2 argv !! 0%nat = Some filePath →
  filePath ≠ EmptyString →
  main argv w =
    match validateFilePath filePath w with
    | (Returned isValid, w1) =>
        if success isValid then runMigration filePath w1
        else
          (Exited 1,
           after w1
             [ConsoleError
                ("Error: " +:+ quote +:+ filePath +:+ quote
                 +:+ " is not a valid TypeScript file. "
                 +:+ default "undefined" (reason isValid))])
    | (Exited c, w1) => (Exited c, w1)
    | (Threw e, w1) => (Threw e, w1)
    | (OutOfFuel, w1) => (OutOfFuel, w1)
    end.
Proof.
  intros Harg Hne. unfold main. rewrite Harg. simpl.
  rewrite bool_decide_eq_false_2 by done.
  unfold mbind, mret, Proc_mbind, Proc_mret, Proc_bind, Proc_ret. simpl.
  destruct (validateFilePath filePath w) as [[isValid| | |] w1]; try done.
  by destruct (success isValid).
Qed.

Lemma runMigration_run filePath w :
  runMigration filePath w =
    let absoluteFilePath := resolve (cwd w) [filePath] in
    match findClosestTsConfig (dirname absoluteFilePath) w with
    | (Returned (Some tsConfigFilePath), w1) =>
        if bool_decide (tsConfigFilePath = EmptyString) then
          (Exited 1, after w1 [ConsoleError noTsConfigMessage])
        else
          match scopedProject tsConfigFilePath absoluteFilePath
                  (after w1
                     [ConsoleLog ("Found tsconfig.json at: "
                                  +:+ tsConfigFilePath);
                      ConsoleLog ("Processing file: " +:+ absoluteFilePath)])
          with
          | (Returned (project, sourceFile), w2) =>
              migrateAndSave project sourceFile w2
          | (Exited c, w2) => (Exited c, w2)
          | (Threw e, w2) => (Threw e, w2)
          | (OutOfFuel, w2) => (OutOfFuel, w2)
          end
    | (Returned None, w1) =>
        (Exited 1, after w1 [ConsoleError noTsConfigMessage])
    | (Exited c, w1) => (Exited c, w1)
    | (Threw e, w1) => (Threw e, w1)
    | (OutOfFuel, w1) => (OutOfFuel, w1)
    end.
Proof.
  unfold runMigration.
  unfold mbind at 1, Proc_mbind, Proc_bind at 1, pathResolve. cbv zeta.
  unfold mbind at 1, Proc_mbind, Proc_bind at 1.
  destruct (findClosestTsConfig _ w) as [[[found|]| | |] w1]; try done.
  simpl. destruct (bool_decide (found = EmptyString)); [done|].
  unfold announce, mbind, mret, Proc_mbind, Proc_mret, Proc_bind, Proc_ret,
    consoleLog, emit. simpl. rewrite <- app_assoc. simpl.
  unfold after. simpl.
  by destruct (scopedProject _ _ _) as [[[project sourceFile]| | |] w2].
Qed.

Lemma saveAll_outcome (files : list SourceFile) :
  ∀ w, ∃ w', saveAll files w = (Returned (), w')
             ∨ ∃ e, saveAll files w = (Threw e, w').
Proof.
  induction files as [|file rest IH]; intros w; simpl; [by eauto|].
  unfold mbind, mret, Proc_mbind, Proc_mret, Proc_bind, Proc_ret.
  destruct (isSaved file); [apply IH|].
  unfold writeSourceFile. cbv zeta.
  destruct (NodeFs.writeFile (disk w) (cwd w) (getFilePath file)
              (printTree (tree file))); [|by eauto].
  destruct (writeFault _ _) as [[partial|]|]; [by eauto | by eauto | apply IH].
Qed.

Lemma save_outcome (project : Project) w :
  ∃ w', (∃ project', save project w = (Returned project', w'))
        ∨ ∃ e, save project w = (Threw e, w').
Proof.
  unfold save, mbind, mret, Proc_mbind, Proc_mret, Proc_bind, Proc_ret.
  destruct (saveAll_outcome (getSourceFiles project) w)
    as (w' & [-> | [e ->]]); eauto.
Qed.

Lemma migrateAndSave_thrown project sourceFile w migrated err :
  migrateZodV3ToV4 sourceFile {| migrateImportDeclarations := true |}
  = (migrated, Some err) →
  migrateAndSave project sourceFile w
  = (Exited 1, after w [ConsoleError (failureMessage migrated err)]).
Proof. intros Hmig. unfold migrateAndSave. by rewrite Hmig. Qed.

Lemma migrateAndSave_migrated project sourceFile w migrated :
  migrateZodV3ToV4 sourceFile {| migrateImportDeclarations := true |}
  = (migrated, None) →
  migrateAndSave project sourceFile w =
    match save (replaceSourceFile project sourceFile migrated) w with
    | (Returned _, w') =>
        (Returned (),
         after w' [ConsoleLog "File has been migrated successfully."])
    | (Exited c, w') => (Exited c, w')
    | (Threw e, w') => (Threw e, w')
    | (OutOfFuel, w') => (OutOfFuel, w')
    end.
Proof.
  intros Hmig. unfold migrateAndSave. rewrite Hmig.
  unfold mbind at 1, Proc_mbind, Proc_bind at 1.
  by destruct (save _ w) as [[project'| | |] w'].
Qed.

(** What comes back from the locator is never the empty string. *)
Lemma findClosestTsConfig_nonempty startDir w found w' :
  findClosestTsConfig startDir w = (Returned (Some found), w') →
  found ≠ EmptyString.
Proof.
  rewrite findClosestTsConfig_run. intros Hrun.
  apply closestFrom_joined in Hrun as [dir ->]. apply join_nonempty.
Qed.

(** The run either goes through every stage and returns, or it does not
    and the process ends with status 1. *)
Lemma main_succeeds_or_fails argv w :
  (pipelineSucceeds argv w ∧ (main argv w).1 = Returned ())
  ∨ (¬ pipelineSucceeds argv w ∧ exitCode (main argv w).1 = Some 1).
Proof.
  destruct (drop 2 argv !! 0%nat) as [filePath|] eqn:Harg.
  2:{ right. rewrite main_no_argument by by rewrite Harg.
      split; [|done]. intros (? & ? & ? & ? & ? & ? & Hreach & _).
      destruct Hreach as (? & ? & ? & ? & ? & _). congruence. }
  destruct (decide (filePath = EmptyString)) as [->|Hne].
  { right. rewrite main_no_argument by by rewrite Harg.
    split; [|done]. intros (? & ? & ? & ? & ? & ? & Hreach & _).
    destruct Hreach as (? & ? & ? & ? & ? & ? & _). congruence. }
  rewrite (main_argument _ _ _ Harg Hne).
  destruct (validateFilePath filePath w) as [ov w1] eqn:Hvalid.
  pose proof Hvalid as Hvalid'. rewrite validateFilePath_run in Hvalid'.
  assert (Hfail1 : ∀ r, ov = Returned r → success r = false →
                        ¬ pipelineSucceeds argv w).
  { intros r -> Hr (? & ? & ? & ? & ? & ? & Hreach & _).
    destruct Hreach as (? & ? & ? & ? & Harg' & _ & Hvalid'' & _).
    rewrite Harg in Harg'. injection Harg' as <-.
    rewrite Hvalid in Hvalid''. injection Hvalid'' as -> _. done. }
  destruct (bool_decide (extname filePath ∈ validExtensions)).
  2:{ injection Hvalid' as <- <-. right. split; [by eapply Hfail1|done]. }
  cbv zeta in Hvalid'. destruct (NodeFs.existsSync _ _ filePath).
  2:{ injection Hvalid' as <- <-. right. split; [by eapply Hfail1|done]. }
  clear Hfail1. injection Hvalid' as <- Hw1. simpl.
  rewrite runMigration_run. cbv zeta.
  destruct (findClosestTsConfig_returns
              (dirname (resolve (cwd w1) [filePath])) w1)
    as (found & es & Hfind & _).
  rewrite Hfind. destruct found as [tsConfigFilePath|].
  2:{ right. split; [|done]. intros (? & ? & ? & ? & ? & ? & Hreach & _).
      destruct Hreach as (? & ? & ? & ? & Harg' & _ & Hvalid'' & Hfind' & _).
      rewrite Harg in Harg'. injection Harg' as <-.
      rewrite Hvalid in Hvalid''. injection Hvalid'' as <-.
      rewrite Hfind in Hfind'. done. }
  rewrite bool_decide_eq_false_2
    by (eapply findClosestTsConfig_nonempty; exact Hfind).
  destruct (scopedProject _ _ _) as [ob w3] eqn:Hbuild.
  assert (Hfail3 : (∀ built, ob ≠ Returned built) →
                   ¬ pipelineSucceeds argv w).
  { intros Hob (? & ? & ? & ? & ? & ? & Hreach & _).
    destruct Hreach
      as (? & ? & ? & ? & Harg' & _ & Hvalid'' & Hfind' & Hbuild').
    rewrite Harg in Harg'. injection Harg' as <-.
    rewrite Hvalid in Hvalid''. injection Hvalid'' as <-.
    rewrite Hfind in Hfind'. injection Hfind' as <- <-.
    rewrite Hbuild in Hbuild'. injection Hbuild' as -> _.
    by eapply Hob. }
  destruct ob as [[project sourceFile]|c|e|].
  2:{ by destruct (scopedProject_outcome _ _ _ _ _ Hbuild) as [[? ?]|[? ?]]. }
  2:{ right. split; [by apply Hfail3|done]. }
  2:{ by destruct (scopedProject_outcome _ _ _ _ _ Hbuild) as [[? ?]|[? ?]]. }
  clear Hfail3.
  assert (Hreach : reachesMigration argv w project sourceFile w3).
  { exists filePath, w1, tsConfigFilePath, (after w1 es). done. }
  assert (Hdet : ∀ project2 sourceFile2 w5,
             reachesMigration argv w project2 sourceFile2 w5 →
             project2 = project ∧ sourceFile2 = sourceFile ∧ w5 = w3).
  { intros project2 sourceFile2 w5
      (? & ? & ? & ? & Harg' & _ & Hvalid'' & Hfind' & Hbuild').
    rewrite Harg in Harg'. injection Harg' as <-.
    rewrite Hvalid in Hvalid''. injection Hvalid'' as <-.
    rewrite Hfind in Hfind'. injection Hfind' as <- <-.
    rewrite Hbuild in Hbuild'. by injection Hbuild' as <- <- <-. }
  destruct (migrateZodV3ToV4 sourceFile
              {| migrateImportDeclarations := true |})
    as [migrated [err|]] eqn:Hmig.
  { rewrite (migrateAndSave_thrown _ _ _ _ _ Hmig). right. split; [|done].
    intros (? & ? & ? & ? & ? & ? & Hreach' & Hmig' & _).
    apply Hdet in Hreach' as (-> & -> & ->). congruence. }
  rewrite (migrateAndSave_migrated _ _ _ _ Hmig).
  destruct (save_outcome (replaceSourceFile project sourceFile migrated) w3)
    as (w4 & [[project' Hsave] | [e Hsave]]); rewrite Hsave.
  - left. split; [|done].
    exists project, sourceFile, w3, migrated, project', w4. done.
  - right. split; [|done].
    intros (? & ? & ? & ? & ? & ? & Hreach' & Hmig' & Hsave').
    apply Hdet in Hreach' as (-> & -> & ->).
    rewrite Hmig in Hmig'. injection Hmig' as <-. congruence.
Qed.

End Run.

(** ** Claims about the whole run *)

Section PipelineClaims.
Context {tsMorph : TsMorph} {migration : Migration}.
Import NodePath.

(** C7. The exit status is 0 exactly when every stage of the pipeline
    succeeds, and 1 otherwise; in particular it is 1 when no path argument
    is given, when the path fails validation, when no configuration is
    found, and when the migration throws. *)
Theorem main_exit_code argv w :
  (exitCode (main argv w).1 = Some 0 ↔ pipelineSucceeds argv w)
  ∧ (¬ pipelineSucceeds argv w → exitCode (main argv w).1 = Some 1)
  ∧ (drop 2 argv !! 0%nat = None → exitCode (main argv w).1 = Some 1)
  ∧ (∀ filePath r w1,
       drop 2 argv !! 0%nat = Some filePath →
       validateFilePath filePath w = (Returned r, w1) →
       success r = false →
       exitCode (main argv w).1 = Some 1)
  ∧ (∀ filePath w1 w2,
       drop 2 argv !! 0%nat = Some filePath →
       validateFilePath filePath w = (Returned Valid, w1) →
       findClosestTsConfig (dirname (resolve (cwd w1) [filePath])) w1
       = (Returned None, w2) →
       exitCode (main argv w).1 = Some 1)
  ∧ (∀ project sourceFile w3 migrated err,
       reachesMigration argv w project sourceFile w3 →
       migrateZodV3ToV4 sourceFile {| migrateImportDeclarations := true |}
       = (migrated, Some err) →
       exitCode (main argv w).1 = Some 1).
Proof.
  assert (Hfails : ¬ pipelineSucceeds argv w →
                   exitCode (main argv w).1 = Some 1).
  { destruct (main_succeeds_or_fails argv w) as [[? ?]|[? ?]]; done. }
  split; [|split; [exact Hfails|]].
  { destruct (main_succeeds_or_fails argv w) as [[? Hret]|[? Hexit]].
    - by rewrite Hret.
    - rewrite Hexit. split; [done|]. intros; done. }
  repeat split.
  - intros Harg. apply Hfails.
    intros (? & ? & ? & ? & ? & ? & Hreach & _).
    destruct Hreach as (? & ? & ? & ? & ? & _). congruence.
  - intros filePath r w1 Harg Hvalid Hr. apply Hfails.
    intros (? & ? & ? & ? & ? & ? & Hreach & _).
    destruct Hreach as (? & ? & ? & ? & Harg' & _ & Hvalid' & _).
    rewrite Harg in Harg'. injection Harg' as <-.
    rewrite Hvalid in Hvalid'. injection Hvalid' as -> _. done.
  - intros filePath w1 w2 Harg Hvalid Hfind. apply Hfails.
    intros (? & ? & ? & ? & ? & ? & Hreach & _).
    destruct Hreach as (? & ? & ? & ? & Harg' & _ & Hvalid' & Hfind' & _).
    rewrite Harg in Harg'. injection Harg' as <-.
    rewrite Hvalid in Hvalid'. injection Hvalid' as <-.
    rewrite Hfind in Hfind'. done.
  - intros project sourceFile w3 migrated err Hreach Hmig. apply Hfails.
    intros (? & ? & ? & ? & ? & ? & Hreach' & Hmig' & _).
    destruct Hreach
      as (? & ? & ? & ? & Harg & _ & Hvalid & Hfind & Hbuild).
    destruct Hreach'
      as (? & ? & ? & ? & Harg' & _ & Hvalid' & Hfind' & Hbuild').
    rewrite Harg in Harg'. injection Harg' as <-.
    rewrite Hvalid in Hvalid'. injection Hvalid' as <-.
    rewrite Hfind in Hfind'. injection Hfind' as <- <-.
    rewrite Hbuild in Hbuild'. injection Hbuild' as <- <- <-.
    congruence.
Qed.

(** C8. With an unrecognized extension the run ends in [process.exit(1)]
    having done nothing but print to the error stream: no question to the
    file system (so no step of the locator, whose every run asks at least
    one, see [findClosestTsConfig_returns]), no file read, nothing
    written, the disk as it was. *)
Theorem main_unrecognized_extension argv w filePath :
  drop 2 argv !! 0%nat = Some filePath →
  extname filePath ∉ validExtensions →
  ∃ es, main argv w = (Exited 1, after w es)
        ∧ Forall (λ e, isConsoleError e = true) es
        ∧ disk (main argv w).2 = disk w.
Proof.
  intros Harg Hext.
  destruct (decide (filePath = EmptyString)) as [->|Hne].
  - rewrite main_no_argument by by rewrite Harg.
    exists usage. split; [done|]. split; [by repeat constructor|done].
  - rewrite (main_argument _ _ _ Harg Hne).
    rewrite validateFilePath_bad_extension by done. simpl.
    eexists. split; [done|]. split; [by repeat constructor|done].
Qed.

(** C2. When the migration throws, [runMigration] catches it and ends in
    [process.exit(1)] after printing the failure message; the save is
    never reached: the disk after the run is the disk the migration was
    called on, which is the disk the run started with, and no event of
    the run is a write. *)
Theorem runMigration_migration_throws filePath w tsConfigFilePath w1
    project sourceFile w2 migrated err :
  findClosestTsConfig (dirname (resolve (cwd w) [filePath])) w
  = (Returned (Some tsConfigFilePath), w1) →
  scopedProject tsConfigFilePath (resolve (cwd w) [filePath])
    (after w1
       [ConsoleLog ("Found tsconfig.json at: " +:+ tsConfigFilePath);
        ConsoleLog ("Processing file: " +:+ resolve (cwd w) [filePath])])
  = (Returned (project, sourceFile), w2) →
  migrateZodV3ToV4 sourceFile {| migrateImportDeclarations := true |}
  = (migrated, Some err) →
  runMigration filePath w
  = (Exited 1, after w2 [ConsoleError (failureMessage migrated err)])
  ∧ disk (runMigration filePath w).2 = disk w2
  ∧ disk w2 = disk w
  ∧ ∃ es, events (runMigration filePath w).2 = events w ++ es
          ∧ Forall (λ e, isWriteFile e = false) es.
Proof.
  intros Hfind Hbuild Hmig.
  assert (Hrun : runMigration filePath w
                 = (Exited 1,
                    after w2 [ConsoleError (failureMessage migrated err)])).
  { rewrite runMigration_run. cbv zeta. rewrite Hfind.
    rewrite bool_decide_eq_false_2
      by (eapply findClosestTsConfig_nonempty; exact Hfind).
    rewrite Hbuild. by apply migrateAndSave_thrown. }
  rewrite Hrun. split; [done|]. split; [done|].
  destruct (findClosestTsConfig_returns
              (dirname (resolve (cwd w) [filePath])) w)
    as (r & es1 & Hfind' & Hes1 & _).
  rewrite Hfind in Hfind'. injection Hfind' as _ ->.
  destruct (scopedProject_reads _ _ _ _ _ Hbuild) as (es2 & -> & Hes2).
  split; [done|]. simpl. eexists. rewrite <- !app_assoc. split; [done|].
  repeat (apply Forall_app; split).
  - eapply Forall_impl; [exact Hes1|]. by intros ? (? & ? & ->).
  - by repeat constructor.
  - eapply Forall_impl; [exact Hes2|]. by intros ? (? & ->).
  - by repeat constructor.
Qed.


End PipelineClaims.

(** ** The claims on the example project *)

Section Witnesses.
Import NodePath Example.

Lemma scopedProject_single_witness :
  (scopedProject "/proj/tsconfig.json" "/proj/src/a.ts" world).1
  = Returned (targetProject, targetFile)
  ∧ getSourceFiles targetProject = [targetFile].
Proof.
  assert (Hbuild :
    scopedProject "/proj/tsconfig.json" "/proj/src/a.ts" world
    = (Returned (targetProject, targetFile),
       (scopedProject "/proj/tsconfig.json" "/proj/src/a.ts" world).2))
    by (vm_compute; reflexivity).
  split; [by rewrite Hbuild|].
  exact (proj1 (proj2 (scopedProject_single _ _ _ _ _ _ Hbuild))).
Defined.

Lemma runMigration_migration_throws_witness :
  (@runMigration engine raises "src/a.ts" world).1 = Exited 1
  ∧ disk (@runMigration engine raises "src/a.ts" world).2 = disk world.
Proof.
  assert (Hfind :
    findClosestTsConfig (dirname (resolve (cwd world) ["src/a.ts"])) world
    = (Returned (Some "/proj/tsconfig.json"),
       (findClosestTsConfig "/proj/src" world).2))
    by (vm_compute; reflexivity).
  assert (Hbuild :
    scopedProject "/proj/tsconfig.json" (resolve (cwd world) ["src/a.ts"])
      (after (findClosestTsConfig "/proj/src" world).2
         [ConsoleLog ("Found tsconfig.json at: " +:+ "/proj/tsconfig.json");
          ConsoleLog ("Processing file: "
                      +:+ resolve (cwd world) ["src/a.ts"])])
    = (Returned (targetProject, targetFile),
       (scopedProject "/proj/tsconfig.json" "/proj/src/a.ts"
          (after (findClosestTsConfig "/proj/src" world).2
             [ConsoleLog "Found tsconfig.json at: /proj/tsconfig.json";
              ConsoleLog "Processing file: /proj/src/a.ts"])).2))
    by (vm_compute; reflexivity).
  destruct (@runMigration_migration_throws engine raises "src/a.ts" world
              _ _ _ _ _ (rewrite targetFile)
              (ErrorObject "Unsupported syntax") Hfind Hbuild eq_refl)
    as (Hrun & Hsame & Hdisk & _).
  split; [by rewrite Hrun | by rewrite Hsame].
Defined.

Lemma findClosestTsConfig_exactly_one_witness :
  (findClosestTsConfig "src" world).1
  = Returned (Some "/proj/tsconfig.json")
  ∧ (findClosestTsConfig "/tmp" world).1 = Returned None.
Proof.
  split.
  - refine (proj1 (proj1 (findClosestTsConfig_exactly_one "src" world)
                     1%nat _ _)).
    + vm_compute. reflexivity.
    + intros [|[|k]] Hother.
      * vm_compute. reflexivity.
      * by destruct Hother.
      * rewrite (ancestor_S (S k)), (ancestor_S k).
        change (dirname (dirname (resolve (cwd world) ["src"]))) with "/".
        rewrite ancestor_fixed by reflexivity. vm_compute. reflexivity.
  - refine (proj2 (findClosestTsConfig_exactly_one "/tmp" world) _).
    intros [|k].
    + vm_compute. reflexivity.
    + rewrite ancestor_S.
      change (dirname (resolve (cwd world) ["/tmp"])) with "/".
      rewrite ancestor_fixed by reflexivity. vm_compute. reflexivity.
Defined.

Lemma validateFilePath_outcomes_witness :
  (validateFilePath "src/a.ts" world).1 = Returned Valid
  ∧ (validateFilePath "src/missing.ts" world).1 = Returned FileNotFound
  ∧ (validateFilePath "README.md" world).1 = Returned InvalidExtension.
Proof.
  split; [|split].
  - apply (validateFilePath_outcomes "src/a.ts" world).
    + apply (bool_decide_unpack _). vm_compute. exact I.
    + vm_compute. reflexivity.
  - apply (validateFilePath_outcomes "src/missing.ts" world).
    + apply (bool_decide_unpack _). vm_compute. exact I.
    + vm_compute. reflexivity.
  - apply (validateFilePath_outcomes "README.md" world).
    apply (bool_decide_eq_false_1 _). vm_compute. reflexivity.
Defined.

(** C6 as stated fails: [src/lib.ts] is a directory, and the validator
    succeeds on it. *)
Lemma validateFilePath_accepts_directory :
  (validateFilePath "src/lib.ts" world).1 = Returned Valid
  ∧ NodeFs.stat (disk world) (cwd world) "src/lib.ts"
    = Some NodeFs.Directory
  ∧ NodeFs.isFile (NodeFs.stat (disk world) (cwd world) "src/lib.ts")
    = false.
Proof. vm_compute. done. Qed.

Lemma validateFilePath_success_witness :
  extname "src/lib.ts" ∈ validExtensions
  ∧ is_Some (NodeFs.stat (disk world) (cwd world) "src/lib.ts").
Proof.
  apply (validateFilePath_success "src/lib.ts" world Valid
           (validateFilePath "src/lib.ts" world).2).
  - vm_compute. reflexivity.
  - reflexivity.
Defined.

Lemma validateFilePath_extension_first_witness :
  validateFilePath "notes/TODO.md" world = (Returned InvalidExtension, world)
  ∧ InvalidExtension ≠ FileNotFound.
Proof.
  apply (validateFilePath_extension_first "notes/TODO.md" world).
  - apply (bool_decide_eq_false_1 _). vm_compute. reflexivity.
  - vm_compute. reflexivity.
Defined.

Lemma main_unrecognized_extension_witness :
  ∃ es, main (argv "README.md") world = (Exited 1, after world es)
        ∧ Forall (λ e, isConsoleError e = true) es
        ∧ disk (main (argv "README.md") world).2 = disk world.
Proof.
  apply (main_unrecognized_extension (argv "README.md") world "README.md").
  - reflexivity.
  - apply (bool_decide_eq_false_1 _). vm_compute. reflexivity.
Defined.

Lemma main_exit_code_witness :
  pipelineSucceeds (argv "src/a.ts") world
  ∧ exitCode (main ["node"; "zod-v3-to-v4"] world).1 = Some 1
  ∧ exitCode (main (argv "src/missing.ts") world).1 = Some 1
  ∧ exitCode (main (argv "/tmp/c.ts") world).1 = Some 1.
Proof.
  split; [|split; [|split]].
  - apply (main_exit_code (argv "src/a.ts") world). vm_compute. reflexivity.
  - apply (main_exit_code ["node"; "zod-v3-to-v4"] world). reflexivity.
  - apply (proj1 (proj2 (proj2 (proj2
             (main_exit_code (argv "src/missing.ts") world))))
             "src/missing.ts" FileNotFound
             (validateFilePath "src/missing.ts" world).2).
    + reflexivity.
    + vm_compute. reflexivity.
    + reflexivity.
  - apply (proj1 (proj2 (proj2 (proj2 (proj2
             (main_exit_code (argv "/tmp/c.ts") world)))))
             "/tmp/c.ts"
             (validateFilePath "/tmp/c.ts" world).2
             (findClosestTsConfig "/tmp"
                (validateFilePath "/tmp/c.ts" world).2).2).
    + reflexivity.
    + vm_compute. reflexivity.
    + vm_compute. reflexivity.
Defined.



End Witnesses.

(** * Further properties of the script *)

(** ** The locator: which configuration, and what it asks *)

Section LocatorMore.
Import NodePath.

Lemma closestFrom_result fuel :
  ∀ dir w r w',
    closestFrom fuel dir w = (Returned r, w') →
    match r with
    | Some found =>
        ∃ d, found = join [ancestor d dir; "tsconfig.json"]
             ∧ hasTsConfig w (ancestor d dir) = true
             ∧ ∀ k, (k < d)%nat → hasTsConfig w (ancestor k dir) = false
    | None => ∀ k, hasTsConfig w (ancestor k dir) = false
    end.
Proof.
  induction fuel as [|fuel IH]; intros dir w r w'; [done|].
  rewrite closestFrom_S. cbv zeta.
  destruct (hasTsConfig w dir) eqn:Hhere.
  { intros [= <- <-]. exists 0%nat. split; [done|]. split; [done|].
    intros; lia. }
  destruct (bool_decide_reflect (dirname dir = dir)) as [Hfix|Hne].
  { intros [= <- <-] k. by rewrite ancestor_fixed. }
  intros Hrun. apply IH in Hrun. destruct r as [found|].
  - destruct Hrun as (d & -> & Hd & Hbefore). exists (S d).
    rewrite ancestor_S. split; [done|]. split; [done|].
    intros [|k] Hk; [done|]. rewrite ancestor_S.
    rewrite <- (hasTsConfig_after w [ExistsSync (join [dir; "tsconfig.json"]) false]).
    apply Hbefore. lia.
  - intros [|k]; [done|]. rewrite ancestor_S. apply Hrun.
Qed.

Lemma closestFrom_trace fuel :
  ∀ dir w r w',
    closestFrom fuel dir w = (Returned r, w') →
    ∃ n, (S n ≤ fuel)%nat ∧ w' = after w (probe w dir <$> seq 0 (S n)).
Proof.
  induction fuel as [|fuel IH]; intros dir w r w'; [done|].
  rewrite closestFrom_S. cbv zeta.
  destruct (hasTsConfig w dir) eqn:Hhere.
  { intros [= <- <-]. exists 0%nat. split; [lia|].
    simpl. unfold probe. change (ancestor 0 dir) with dir. by rewrite Hhere. }
  destruct (bool_decide (dirname dir = dir)).
  { intros [= <- <-]. exists 0%nat. split; [lia|].
    simpl. unfold probe. change (ancestor 0 dir) with dir. by rewrite Hhere. }
  intros Hrun. apply IH in Hrun as (n & Hn & ->). exists (S n).
  split; [lia|]. rewrite after_after. f_equal.
  change (seq 0 (S (S n))) with (0%nat :: seq 1 (S n)).
  rewrite fmap_cons, <- fmap_S_seq, <- list_fmap_compose.
  cbn [app].
  assert (Hhead : ExistsSync (join [dir; "tsconfig.json"]) false
                  = probe w dir 0)
    by (unfold probe; change (ancestor 0 dir) with dir; by rewrite Hhere).
  rewrite Hhead. apply (f_equal (cons _)). apply list_fmap_ext. intros _ k _. unfold probe, compose.
  by rewrite hasTsConfig_after, ancestor_S.
Qed.

Lemma closestFrom_none_trace fuel :
  ∀ dir w w',
    closestFrom fuel dir w = (Returned None, w') →
    ∃ n, dirname (ancestor n dir) = ancestor n dir
         ∧ (∀ k, (k < n)%nat → dirname (ancestor k dir) ≠ ancestor k dir)
         ∧ w' = after w
                  ((λ k, ExistsSync (join [ancestor k dir; "tsconfig.json"])
                           false)
                   <$> seq 0 (S n)).
Proof.
  induction fuel as [|fuel IH]; intros dir w w'; [done|].
  rewrite closestFrom_S. cbv zeta.
  destruct (hasTsConfig w dir); [done|].
  destruct (bool_decide_reflect (dirname dir = dir)) as [Hfix|Hne].
  { intros [= <-]. exists 0%nat. split; [done|]. split; [intros; lia|done]. }
  intros Hrun. apply IH in Hrun as (n & Hroot & Hbelow & ->). exists (S n).
  split; [by rewrite ancestor_S|]. split.
  - intros [|k] Hk; [done|]. rewrite ancestor_S. apply Hbelow. lia.
  - rewrite after_after. f_equal.
    change (seq 0 (S (S n))) with (0%nat :: seq 1 (S n)).
    rewrite fmap_cons, <- fmap_S_seq, <- list_fmap_compose. cbn [app].
    apply (f_equal (cons _)). apply list_fmap_ext. intros _ k _.
    unfold compose. by rewrite ancestor_S.
Qed.

(** X1. When several ancestors hold a [tsconfig.json] the closest one is
    returned: the first ancestor, counting from the starting directory,
    that holds one. *)
Theorem findClosestTsConfig_nearest startDir w d :
  hasTsConfig w (ancestor d (resolve (cwd w) [startDir])) = true →
  (∀ k, (k < d)%nat →
        hasTsConfig w (ancestor k (resolve (cwd w) [startDir])) = false) →
  (findClosestTsConfig startDir w).1
  = Returned (Some (join [ancestor d (resolve (cwd w) [startDir]);
                          "tsconfig.json"])).
Proof.
  intros Hd Hbefore.
  destruct (findClosestTsConfig_returns startDir w) as (r & es & Hrun & _).
  rewrite Hrun. rewrite findClosestTsConfig_run in Hrun.
  destruct (closestFrom_nearest d
              (String.length (resolve (cwd w) [startDir]) + 2 + d)
              (resolve (cwd w) [startDir]) w ltac:(lia) Hd Hbefore)
    as (w' & Hnear).
  rewrite (closestFrom_mono _ _ _ _ _ Hrun
             (String.length (resolve (cwd w) [startDir]) + 2 + d)%nat)
    in Hnear by lia.
  by injection Hnear as -> _.
Qed.

(** X2. What the locator returns is right: a path it returns is that of
    a [tsconfig.json] that exists, in an ancestor of the starting directory
    with none in the directories nearer to the start; and it returns [null]
    only when no ancestor at all holds one. *)
Theorem findClosestTsConfig_sound startDir w :
  match (findClosestTsConfig startDir w).1 with
  | Returned (Some found) =>
      ∃ d, found = join [ancestor d (resolve (cwd w) [startDir]);
                         "tsconfig.json"]
           ∧ NodeFs.existsSync (disk w) (cwd w) found = true
           ∧ ∀ k, (k < d)%nat →
                  hasTsConfig w (ancestor k (resolve (cwd w) [startDir]))
                  = false
  | Returned None =>
      ∀ k, hasTsConfig w (ancestor k (resolve (cwd w) [startDir])) = false
  | _ => False
  end.
Proof.
  destruct (findClosestTsConfig_returns startDir w) as (r & es & Hrun & _).
  rewrite Hrun. rewrite findClosestTsConfig_run in Hrun.
  apply closestFrom_result in Hrun. simpl. destruct r as [found|]; [|done].
  destruct Hrun as (d & -> & Hd & Hbefore). by exists d.
Qed.

(** X3. The locator only asks whether files exist: what it leaves in the
    world is one [existsSync] question per directory it visits, for
    [tsconfig.json] in the starting directory, then in its parent, and so
    on in order, each with the answer of the disk; it visits at most
    [length + 2] directories and changes nothing on disk. *)
Theorem findClosestTsConfig_trace startDir w :
  ∃ n, (n ≤ String.length (resolve (cwd w) [startDir]) + 1)%nat
       ∧ (findClosestTsConfig startDir w).2
         = after w (probe w (resolve (cwd w) [startDir]) <$> seq 0 (S n)).
Proof.
  destruct (findClosestTsConfig_returns startDir w) as (r & es & Hrun & _).
  rewrite Hrun. rewrite findClosestTsConfig_run in Hrun.
  apply closestFrom_trace in Hrun as (n & Hn & Hw). exists n.
  split; [lia|done].
Qed.

End LocatorMore.

(** ** The run as a whole *)

Section RunMore.
Context {tsMorph : TsMorph} {migration : Migration}.
Import NodePath.

Lemma quiet_probes es :
  Forall (λ e, ∃ path found, e = ExistsSync path found) es → Forall quiet es.
Proof.
  intros Hes. eapply Forall_impl; [exact Hes|]. by intros ? (? & ? & ->).
Qed.

Lemma quiet_reads es :
  Forall (λ e, ∃ path, e = ReadFile path) es → Forall quiet es.
Proof.
  intros Hes. eapply Forall_impl; [exact Hes|]. by intros ? (? & ->).
Qed.

Lemma quiet_no_write es :
  Forall quiet es → filter (λ e, isWriteFile e = true) es = [].
Proof.
  induction 1 as [|e es [Hw _] _ IH]; [done|].
  rewrite filter_cons_False; [done|]. by rewrite Hw.
Qed.

(** After the migration the project of one file holds the migrated file,
    and nothing else. *)
Lemma replaceSourceFile_single (project : Project) sourceFile migrated :
  sourceFiles project = {[getFilePath sourceFile := sourceFile]} →
  getSourceFiles (replaceSourceFile project sourceFile migrated) = [migrated].
Proof.
  intros Hone. unfold getSourceFiles, replaceSourceFile. simpl.
  by rewrite Hone, delete_singleton_eq, insert_empty, map_to_list_singleton.
Qed.

(** One write either goes through, and the disk is the result of
    [NodeFs.writeFile], or it throws, with no event recorded. *)
Lemma writeSourceFile_outcome (file : SourceFile) w :
  (∃ disk',
     NodeFs.writeFile (disk w) (cwd w) (getFilePath file)
       (printTree (tree file)) = Some disk'
     ∧ writeSourceFile file w
       = (Returned (),
          {| cwd := cwd w; disk := disk';
             events := events w
                       ++ [WriteFile (getFilePath file)
                             (printTree (tree file))] |}))
  ∨ ∃ e disk',
      writeSourceFile file w
      = (Threw e, {| cwd := cwd w; disk := disk'; events := events w |}).
Proof.
  unfold writeSourceFile. cbv zeta.
  destruct (NodeFs.writeFile (disk w) (cwd w) (getFilePath file)
              (printTree (tree file))) as [disk'|] eqn:Hwrite.
  - destruct (writeFault _ _) as [[partial|]|].
    + right. eauto.
    + right. eexists _, (disk w). by destruct w.
    + left. eauto.
  - right. eexists _, (disk w). by destruct w.
Qed.

(** Lines 72-87 on a project of one file: nothing to write when the file
    has no unsaved change, else one write. *)
Lemma migrateAndSave_single (project : Project) sourceFile migrated w :
  sourceFiles project = {[getFilePath sourceFile := sourceFile]} →
  migrateZodV3ToV4 sourceFile {| migrateImportDeclarations := true |}
  = (migrated, None) →
  migrateAndSave project sourceFile w =
    if isSaved migrated then (Returned (), after w [ConsoleLog successMessage])
    else
      match writeSourceFile migrated w with
      | (Returned _, w') =>
          (Returned (), after w' [ConsoleLog successMessage])
      | (Exited c, w') => (Exited c, w')
      | (Threw e, w') => (Threw e, w')
      | (OutOfFuel, w') => (OutOfFuel, w')
      end.
Proof.
  intros Hone Hmig. rewrite (migrateAndSave_migrated _ _ _ _ Hmig).
  unfold save. unfold mbind at 1, Proc_mbind, Proc_bind at 1.
  rewrite (replaceSourceFile_single _ _ _ Hone). simpl.
  unfold mbind, mret, Proc_mbind, Proc_mret, Proc_bind, Proc_ret.
  destruct (isSaved migrated); [done|].
  by destruct (writeSourceFile migrated w) as [[[]| | |] w'].
Qed.

(** What is known when the run has reached the migration: so far it has
    only asked, printed and read, and the project holds the one file, with
    no unsaved change. *)
Lemma reachesMigration_facts argv w (project : Project) sourceFile w3 :
  reachesMigration argv w project sourceFile w3 →
  ∃ es, w3 = after w es ∧ Forall quiet es ∧ es ≠ []
        ∧ sourceFiles project = {[getFilePath sourceFile := sourceFile]}
        ∧ isSaved sourceFile = true.
Proof.
  intros (filePath & w1 & tsConfigFilePath & w2
          & _ & _ & Hvalid & Hfind & Hbuild).
  rewrite validateFilePath_run in Hvalid.
  destruct (bool_decide _); [|done]. cbv zeta in Hvalid.
  injection Hvalid as _ <-.
  destruct (findClosestTsConfig_returns
              (dirname (resolve (cwd w) [filePath]))
              (after w [ExistsSync filePath
                          (NodeFs.existsSync (disk w) (cwd w) filePath)]))
    as (r & es1 & Hfind' & Hes1 & _).
  simpl in Hfind. rewrite Hfind in Hfind'. injection Hfind' as _ ->.
  destruct (scopedProject_reads _ _ _ _ _ Hbuild) as (es2 & -> & Hes2).
  rewrite scopedProject_run in Hbuild.
  destruct (loadTsConfig _ _) as [[options loaded]|e]; [|done].
  cbv zeta in Hbuild. destruct (NodeFs.readFile _ _ _); [|done].
  destruct (parseText _ _ _); [|done]. injection Hbuild as <- <- _.
  eexists. rewrite !after_after. split; [done|].
  split; [|by split].
  repeat (apply Forall_app; split); try by apply quiet_probes.
  - by repeat constructor.
  - by repeat constructor.
  - by apply quiet_reads.
Qed.

(** Every run either reaches the migration, or ends before it with status
    1, having only asked, printed and read. *)
Lemma main_cases argv w :
  (∃ project sourceFile w3,
     reachesMigration argv w project sourceFile w3
     ∧ main argv w = migrateAndSave project sourceFile w3)
  ∨ (∃ o es, main argv w = (o, after w es)
             ∧ exitCode o = Some 1 ∧ Forall quiet es
             ∧ ∀ project sourceFile w3,
                 ¬ reachesMigration argv w project sourceFile w3).
Proof.
  destruct (drop 2 argv !! 0%nat) as [filePath|] eqn:Harg.
  2:{ right. rewrite main_no_argument by by rewrite Harg.
      exists (Exited 1), usage. split; [done|]. split; [done|].
      split; [by repeat constructor|].
      intros ? ? ? (? & ? & ? & ? & ? & _). congruence. }
  destruct (decide (filePath = EmptyString)) as [->|Hne].
  { right. rewrite main_no_argument by by rewrite Harg.
    exists (Exited 1), usage. split; [done|]. split; [done|].
    split; [by repeat constructor|].
    intros ? ? ? (? & ? & ? & ? & ? & ? & _). congruence. }
  rewrite (main_argument _ _ _ Harg Hne).
  destruct (validateFilePath filePath w) as [ov w1] eqn:Hvalid.
  pose proof Hvalid as Hvalid'. rewrite validateFilePath_run in Hvalid'.
  assert (Hfail1 : ∀ r, ov = Returned r → success r = false →
            ∀ project sourceFile w3,
              ¬ reachesMigration argv w project sourceFile w3).
  { intros r -> Hr ? ? ? (? & ? & ? & ? & Harg' & _ & Hvalid'' & _).
    rewrite Harg in Harg'. injection Harg' as <-.
    rewrite Hvalid in Hvalid''. injection Hvalid'' as -> _. done. }
  destruct (bool_decide (extname filePath ∈ validExtensions)).
  2:{ injection Hvalid' as <- <-. right. simpl. eexists _, [_].
      split; [done|]. split; [done|]. split; [by repeat constructor|].
      by eapply Hfail1. }
  cbv zeta in Hvalid'. destruct (NodeFs.existsSync _ _ filePath).
  2:{ injection Hvalid' as <- <-. right. simpl. eexists _, [_; _].
      rewrite after_after. split; [done|]. split; [done|].
      split; [by repeat constructor|]. by eapply Hfail1. }
  clear Hfail1. injection Hvalid' as <- Hw1. simpl.
  rewrite runMigration_run. cbv zeta.
  destruct (findClosestTsConfig_returns
              (dirname (resolve (cwd w1) [filePath])) w1)
    as (found & es & Hfind & Hes & _).
  rewrite Hfind. destruct found as [tsConfigFilePath|].
  2:{ right. subst w1. eexists _, _. rewrite !after_after.
      split; [done|]. split; [done|]. split.
      - repeat (apply Forall_app; split); try by apply quiet_probes.
        + by repeat constructor.
        + by repeat constructor.
      - intros ? ? ? (? & ? & ? & ? & Harg' & _ & Hvalid'' & Hfind' & _).
        rewrite Harg in Harg'. injection Harg' as <-.
        rewrite Hvalid in Hvalid''. injection Hvalid'' as <-.
        rewrite Hfind in Hfind'. done. }
  rewrite bool_decide_eq_false_2
    by (eapply findClosestTsConfig_nonempty; exact Hfind).
  destruct (scopedProject _ _ _) as [ob w3] eqn:Hbuild.
  destruct (scopedProject_reads _ _ _ _ _ Hbuild) as (esb & Hw3 & Hesb).
  destruct (scopedProject_outcome _ _ _ _ _ Hbuild)
    as [[[project sourceFile] ->] | [e ->]].
  - left. exists project, sourceFile, w3. split; [|done].
    exists filePath, w1, tsConfigFilePath, (after w1 es). done.
  - right. subst w3 w1. eexists _, _. rewrite !after_after.
    split; [done|]. split; [done|]. split.
    + repeat (apply Forall_app; split); try by apply quiet_probes.
      * by repeat constructor.
      * by repeat constructor.
      * by apply quiet_reads.
    + intros ? ? ? (? & ? & ? & ? & Harg' & _ & Hvalid'' & Hfind' & Hbuild').
      rewrite Harg in Harg'. injection Harg' as <-.
      rewrite Hvalid in Hvalid''. injection Hvalid'' as <-.
      rewrite Hfind in Hfind'. injection Hfind' as <- <-.
      rewrite Hbuild in Hbuild'. done.
Qed.

(** The five ways a run can go. *)
Lemma main_shapes argv w :
  (∃ o es, main argv w = (o, after w es)
           ∧ exitCode o = Some 1 ∧ Forall quiet es
           ∧ ∀ project sourceFile w3,
               ¬ reachesMigration argv w project sourceFile w3)
  ∨ ∃ project sourceFile es migrated thrown,
      reachesMigration argv w project sourceFile (after w es)
      ∧ Forall quiet es ∧ es ≠ [] ∧ isSaved sourceFile = true
      ∧ migrateZodV3ToV4 sourceFile {| migrateImportDeclarations := true |}
        = (migrated, thrown)
      ∧ match thrown with
        | Some err =>
            main argv w
            = (Exited 1,
               after w (es ++ [ConsoleError (failureMessage migrated err)]))
        | None =>
            if isSaved migrated then
              main argv w
              = (Returned (), after w (es ++ [ConsoleLog successMessage]))
            else
              (∃ disk',
                 NodeFs.writeFile (disk w) (cwd w) (getFilePath migrated)
                   (printTree (tree migrated)) = Some disk'
                 ∧ main argv w
                   = (Returned (),
                      {| cwd := cwd w; disk := disk';
                         events := events w
                                   ++ es
                                   ++ [WriteFile (getFilePath migrated)
                                         (printTree (tree migrated));
                                       ConsoleLog successMessage] |}))
              ∨ ∃ e disk',
                  main argv w
                  = (Threw e,
                     {| cwd := cwd w; disk := disk';
                        events := events w ++ es |})
        end.
Proof.
  destruct (main_cases argv w)
    as [(project & sourceFile & w3 & Hreach & Hmain) | Hearly]; [|by left].
  right.
  destruct (reachesMigration_facts _ _ _ _ _ Hreach)
    as (es & -> & Hquiet & Hne & Hone & Hsaved).
  destruct (migrateZodV3ToV4 sourceFile
              {| migrateImportDeclarations := true |})
    as [migrated thrown] eqn:Hmig.
  exists project, sourceFile, es, migrated, thrown.
  do 5 (split; [done|]). rewrite Hmain. destruct thrown as [err|].
  - rewrite (migrateAndSave_thrown _ _ _ _ _ Hmig). by rewrite after_after.
  - rewrite (migrateAndSave_single _ _ _ _ Hone Hmig).
    destruct (isSaved migrated); [by rewrite after_after|].
    destruct (writeSourceFile_outcome migrated (after w es))
      as [(disk' & Hwrite & ->) | (e & disk' & ->)].
    + left. exists disk'. split; [exact Hwrite|].
      unfold after. simpl. by rewrite <- !app_assoc.
    + right. by exists e, disk'.
Qed.

(** X4. Without a path argument, or with the empty string as path
    argument, the script prints its two usage lines on the error stream and
    ends in [process.exit(1)], having asked nothing of the file system. *)
Theorem main_without_path argv w :
  argv !! 2%nat = None ∨ argv !! 2%nat = Some EmptyString →
  main argv w = (Exited 1, after w usage).
Proof.
  intros Harg. apply main_no_argument. rewrite lookup_drop. simpl.
  by destruct Harg as [-> | ->].
Qed.

(** X5. A path with a recognized extension at which nothing exists is
    reported as [File not found.], with the path between quotes, and the
    run ends in [process.exit(1)] after its one question to the file
    system: no configuration is looked for. *)
Theorem main_file_not_found argv w filePath :
  argv !! 2%nat = Some filePath →
  extname filePath ∈ validExtensions →
  NodeFs.existsSync (disk w) (cwd w) filePath = false →
  main argv w
  = (Exited 1,
     after w
       [ExistsSync filePath false;
        ConsoleError ("Error: " +:+ quote +:+ filePath +:+ quote
                      +:+ " is not a valid TypeScript file. File not found.")]).
Proof.
  intros Harg Hext Hmissing.
  assert (Hne : filePath ≠ EmptyString).
  { intros ->. revert Hext. apply (bool_decide_eq_false_1 _).
    vm_compute. reflexivity. }
  rewrite (main_argument argv w filePath ltac:(by rewrite lookup_drop) Hne).
  rewrite validateFilePath_run, bool_decide_eq_true_2 by done.
  cbv zeta. rewrite Hmissing. simpl. by rewrite after_after.
Qed.

(** X6. When the file is there but no directory above it holds a
    [tsconfig.json], the run asks once for the file, then once for the
    [tsconfig.json] of every ancestor directory, from the directory of the
    file up to and including the root (the first directory that is its own
    parent), prints the message that names the missing [tsconfig.json] and
    ends in [process.exit(1)]: no project is built, nothing is read or
    written. *)
Theorem main_no_tsconfig argv w filePath :
  let start := resolve (cwd w) [dirname (resolve (cwd w) [filePath])] in
  argv !! 2%nat = Some filePath →
  extname filePath ∈ validExtensions →
  NodeFs.existsSync (disk w) (cwd w) filePath = true →
  (∀ k, hasTsConfig w (ancestor k start) = false) →
  ∃ n, dirname (ancestor n start) = ancestor n start
       ∧ (∀ k, (k < n)%nat → dirname (ancestor k start) ≠ ancestor k start)
       ∧ main argv w
         = (Exited 1,
            after w
              (ExistsSync filePath true
               :: ((λ k, ExistsSync (join [ancestor k start; "tsconfig.json"])
                           false)
                   <$> seq 0 (S n))
               ++ [ConsoleError noTsConfigMessage])).
Proof.
  intros start Harg Hext Hfound Hnone.
  assert (Hne : filePath ≠ EmptyString).
  { intros ->. revert Hext. apply (bool_decide_eq_false_1 _).
    vm_compute. reflexivity. }
  rewrite (main_argument argv w filePath ltac:(by rewrite lookup_drop) Hne).
  rewrite validateFilePath_run, bool_decide_eq_true_2 by done.
  cbv zeta. rewrite Hfound. simpl.
  rewrite runMigration_run. cbv zeta.
  destruct (findClosestTsConfig_returns
              (dirname (resolve (cwd w) [filePath]))
              (after w [ExistsSync filePath true]))
    as (r & es & Hfind & _).
  simpl. simpl in Hfind. rewrite Hfind.
  rewrite findClosestTsConfig_run in Hfind.
  change (cwd (after w [ExistsSync filePath true])) with (cwd w) in Hfind.
  fold start in Hfind.
  pose proof (closestFrom_none _ _ (after w [ExistsSync filePath true]) _ _
                Hnone Hfind) as ->.
  apply closestFrom_none_trace in Hfind as (n & Hroot & Hbelow & Hw).
  exists n. split; [done|]. split; [done|].
  rewrite Hw, !after_after. done.
Qed.

(** X7. A run that fails anywhere before the save leaves the disk exactly
    as it found it. Precisely: a run that does not end with status 0 has
    left the disk unchanged, unless it got past the migration with unsaved
    changes and the write of the save itself failed; about the disk after a
    failed write nothing is said. *)
Theorem main_failure_before_save_preserves_disk argv w :
  exitCode (main argv w).1 ≠ Some 0 →
  disk (main argv w).2 = disk w
  ∨ ∃ project sourceFile w3 migrated e,
      reachesMigration argv w project sourceFile w3
      ∧ migrateZodV3ToV4 sourceFile {| migrateImportDeclarations := true |}
        = (migrated, None)
      ∧ isSaved migrated = false
      ∧ (main argv w).1 = Threw e.
Proof.
  intros Hfail.
  destruct (main_shapes argv w)
    as [(o & es & Hmain & _) |
        (project & sourceFile & es & migrated & thrown
         & Hreach & _ & _ & _ & Hmig & Hmain)].
  { left. by rewrite Hmain. }
  destruct thrown as [err|]; [left; by rewrite Hmain|].
  destruct (isSaved migrated) eqn:Hsaved; [left; by rewrite Hmain|].
  destruct Hmain as [(disk' & _ & Hmain) | (e & disk' & Hmain)].
  - rewrite Hmain in Hfail. done.
  - right. exists project, sourceFile, (after w es), migrated, e.
    by rewrite Hmain.
Qed.

(** X8. A run attempts at most one write, that of the migrated file.
    Either nothing is written: the disk is unchanged and no write is among
    the events of the run. Or the run reached the save with a migrated
    file that has unsaved changes, and then either the write went through:
    the run ended normally, the disk is the old disk with the printed tree
    of the migrated file at the path of that file, and this is the only
    write of the run; or the write failed and the run ended in its
    exception, with no completed write among its events. *)
Theorem main_writes_only_target argv w :
  ∃ es,
    events (main argv w).2 = events w ++ es
    ∧ ((disk (main argv w).2 = disk w
        ∧ filter (λ e, isWriteFile e = true) es = [])
       ∨ ∃ project sourceFile w3 migrated,
           reachesMigration argv w project sourceFile w3
           ∧ migrateZodV3ToV4 sourceFile
               {| migrateImportDeclarations := true |}
             = (migrated, None)
           ∧ isSaved migrated = false
           ∧ ((NodeFs.writeFile (disk w) (cwd w) (getFilePath migrated)
                 (printTree (tree migrated))
               = Some (disk (main argv w).2)
               ∧ filter (λ e, isWriteFile e = true) es
                 = [WriteFile (getFilePath migrated)
                      (printTree (tree migrated))]
               ∧ (main argv w).1 = Returned ())
              ∨ (filter (λ e, isWriteFile e = true) es = []
                 ∧ ∃ e, (main argv w).1 = Threw e))).
Proof.
  destruct (main_shapes argv w)
    as [(o & es & Hmain & _ & Hquiet & _) |
        (project & sourceFile & es & migrated & thrown
         & Hreach & Hquiet & _ & _ & Hmig & Hmain)].
  { rewrite Hmain. exists es. split; [done|]. left.
    split; [done | by apply quiet_no_write]. }
  destruct thrown as [err|].
  { rewrite Hmain. eexists. split; [done|]. left. split; [done|].
    apply quiet_no_write, Forall_app. split; [done|]. by repeat constructor. }
  destruct (isSaved migrated) eqn:Hsaved.
  { rewrite Hmain. eexists. split; [done|]. left. split; [done|].
    rewrite filter_app, (quiet_no_write es) by done. done. }
  destruct Hmain as [(disk' & Hwrite & Hmain) | (e & disk' & Hmain)].
  - rewrite Hmain. eexists. split; [done|]. right.
    exists project, sourceFile, (after w es), migrated.
    do 3 (split; [done|]). left. split; [done|]. split; [|done].
    rewrite filter_app, (quiet_no_write es) by done. done.
  - rewrite Hmain. exists es. split; [done|]. right.
    exists project, sourceFile, (after w es), migrated.
    do 3 (split; [done|]). right.
    split; [by apply quiet_no_write | by exists e].
Qed.

(** X9. With a migration that changes nothing, no run changes the disk,
    and every run that reaches the migration ends with status 0. *)
Theorem main_unchanging_migration argv w :
  (∀ file options, migrateZodV3ToV4 file options = (file, None)) →
  disk (main argv w).2 = disk w
  ∧ ∀ project sourceFile w3,
      reachesMigration argv w project sourceFile w3 →
      exitCode (main argv w).1 = Some 0.
Proof.
  intros Hnoop.
  destruct (main_shapes argv w)
    as [(o & es & Hmain & _ & _ & Hnever) |
        (project & sourceFile & es & migrated & thrown
         & _ & _ & _ & Hsaved & Hmig & Hmain)].
  { rewrite Hmain. split; [done|]. intros ? ? ? Hreach.
    by apply Hnever in Hreach. }
  rewrite Hnoop in Hmig. injection Hmig as <- <-.
  rewrite Hsaved in Hmain. by rewrite Hmain.
Qed.

(** X10. The success message is the last thing a run does exactly when it
    ends with status 0: no failed run prints it, and nothing follows it. *)
Theorem main_success_logged argv w :
  ∃ es,
    events (main argv w).2 = events w ++ es
    ∧ (exitCode (main argv w).1 = Some 0
       ↔ last es = Some (ConsoleLog successMessage)).
Proof.
  assert (Hquiet_last : ∀ es, Forall quiet es →
            last es ≠ Some (ConsoleLog successMessage)).
  { intros es Hquiet Hlast. apply last_Some_elem_of in Hlast.
    rewrite Forall_forall in Hquiet. by destruct (Hquiet _ Hlast). }
  destruct (main_shapes argv w)
    as [(o & es & Hmain & Hexit & Hquiet & _) |
        (project & sourceFile & es & migrated & thrown
         & _ & Hquiet & _ & _ & _ & Hmain)].
  { rewrite Hmain. exists es. split; [done|]. simpl. rewrite Hexit.
    split; [done|]. intros Hlast. by apply Hquiet_last in Hlast. }
  destruct thrown as [err|].
  { rewrite Hmain. eexists. split; [done|]. simpl. rewrite last_snoc.
    split; done. }
  destruct (isSaved migrated).
  { rewrite Hmain. eexists. split; [done|]. simpl. by rewrite last_snoc. }
  destruct Hmain as [(disk' & _ & Hmain) | (e & disk' & Hmain)].
  - rewrite Hmain. eexists. split; [done|]. simpl.
    by rewrite last_app_cons.
  - rewrite Hmain. exists es. split; [done|].
    simpl. split; [done|]. intros Hlast. by apply Hquiet_last in Hlast.
Qed.

(** What a run has done when it reaches the migration, stage by stage. *)
Lemma reachesMigration_trace argv w (project : Project) sourceFile w3 :
  reachesMigration argv w project sourceFile w3 →
  ∃ filePath tsConfigFilePath probes reads,
    argv !! 2%nat = Some filePath
    ∧ w3 = after w
             (ExistsSync filePath true
              :: probes
              ++ [ConsoleLog ("Found tsconfig.json at: " +:+ tsConfigFilePath);
                  ConsoleLog ("Processing file: "
                              +:+ resolve (cwd w) [filePath])]
              ++ reads)
    ∧ Forall (λ e, ∃ path found, e = ExistsSync path found) probes
    ∧ Forall (λ e, ∃ path, e = ReadFile path) reads.
Proof.
  intros (filePath & w1 & tsConfigFilePath & w2
          & Harg & _ & Hvalid & Hfind & Hbuild).
  rewrite lookup_drop in Harg.
  rewrite validateFilePath_run in Hvalid.
  destruct (bool_decide _); [|done]. cbv zeta in Hvalid.
  destruct (NodeFs.existsSync _ _ filePath); [|done].
  injection Hvalid as <-.
  destruct (findClosestTsConfig_returns
              (dirname (resolve (cwd w) [filePath]))
              (after w [ExistsSync filePath true]))
    as (r & probes & Hfind' & Hprobes & _).
  simpl in Hfind. rewrite Hfind in Hfind'. injection Hfind' as _ ->.
  destruct (scopedProject_reads _ _ _ _ _ Hbuild) as (reads & -> & Hreads).
  exists filePath, tsConfigFilePath, probes, reads.
  split; [done|]. split; [|done]. rewrite !after_after. done.
Qed.


End RunMore.

(** ** The further properties on the example project *)

Section MoreWitnesses.
Import NodePath Example Scenario.

Lemma findClosestTsConfig_nearest_witness :
  (findClosestTsConfig "src/lib.ts" nestedWorld).1
  = Returned (Some "/proj/src/tsconfig.json")
  ∧ hasTsConfig nestedWorld "/proj" = true.
Proof.
  split; [|vm_compute; reflexivity].
  refine (findClosestTsConfig_nearest "src/lib.ts" nestedWorld 1 _ _).
  - vm_compute. reflexivity.
  - intros [|k] Hk; [|lia]. vm_compute. reflexivity.
Defined.

Lemma main_without_path_witness :
  main ["node"; "zod-v3-to-v4"; EmptyString] world
  = (Exited 1, after world usage).
Proof.
  apply (main_without_path ["node"; "zod-v3-to-v4"; EmptyString] world).
  right. reflexivity.
Defined.

Lemma main_file_not_found_witness :
  (main (argv "src/missing.ts") world).1 = Exited 1
  ∧ length (events (main (argv "src/missing.ts") world).2) = 2%nat.
Proof.
  rewrite (main_file_not_found (argv "src/missing.ts") world "src/missing.ts").
  - done.
  - reflexivity.
  - apply (bool_decide_unpack _). vm_compute. exact I.
  - vm_compute. reflexivity.
Defined.

Lemma main_no_tsconfig_witness :
  ∃ n, dirname (ancestor n "/tmp") = ancestor n "/tmp"
       ∧ (∀ k, (k < n)%nat → dirname (ancestor k "/tmp") ≠ ancestor k "/tmp")
       ∧ main (argv "/tmp/c.ts") world
         = (Exited 1,
            after world
              (ExistsSync "/tmp/c.ts" true
               :: ((λ k, ExistsSync (join [ancestor k "/tmp"; "tsconfig.json"])
                           false)
                   <$> seq 0 (S n))
               ++ [ConsoleError noTsConfigMessage])).
Proof.
  apply (main_no_tsconfig (argv "/tmp/c.ts") world "/tmp/c.ts").
  - reflexivity.
  - apply (bool_decide_unpack _). vm_compute. exact I.
  - vm_compute. reflexivity.
  - intros [|k].
    + vm_compute. reflexivity.
    + rewrite ancestor_S.
      change (dirname (resolve (cwd world)
                         [dirname (resolve (cwd world) ["/tmp/c.ts"])]))
        with "/".
      rewrite ancestor_fixed by reflexivity. vm_compute. reflexivity.
Defined.

Lemma main_failure_before_save_preserves_disk_witness :
  disk (@main engine raises (argv "src/a.ts") world).2 = disk world.
Proof.
  destruct (@main_failure_before_save_preserves_disk engine raises
              (argv "src/a.ts") world ltac:(vm_compute; discriminate))
    as [Hdisk | (? & ? & ? & ? & e & _ & _ & _ & Hthrew)].
  - exact Hdisk.
  - exfalso. revert Hthrew. vm_compute. discriminate.
Defined.

Lemma main_unchanging_migration_witness :
  disk (@main engine noop (argv "src/a.ts") world).2 = disk world
  ∧ exitCode (@main engine noop (argv "src/a.ts") world).1 = Some 0.
Proof.
  destruct (@main_unchanging_migration engine noop (argv "src/a.ts") world
              ltac:(reflexivity)) as [Hdisk Hexit].
  split; [exact Hdisk|].
  destruct (@main_cases engine noop (argv "src/a.ts") world)
    as [(project & sourceFile & w3 & Hreach & _) | (o & es & Hmain & Hone & _)].
  - exact (Hexit _ _ _ Hreach).
  - exfalso. revert Hone.
    replace o with (@main engine noop (argv "src/a.ts") world).1
      by by rewrite Hmain.
    vm_compute. discriminate.
Defined.


End MoreWitnesses.
